(** * Snowflake identifiers: the pyflake generator and its codec

    A shallow embedding of [main.py] (module [Main]) and of the reworked
    [src/main.py] (module [SrcMain]) of the snowflake repository.

    Python integers are unbounded, so they are [Z]; [<<], [>>], [|], [&]
    and [^] are [Z.shiftl], [Z.shiftr], [Z.lor], [Z.land] and [Z.lxor].
    The wall clock is external to the program: a run is driven by the list
    of values that the successive reads of [time.time()] return, one per
    iteration of the generator's loop, and the calls of the injected
    [sleep] are recorded with their argument. *)

From Stdlib Require Import ZArith List Bool Lia String Sorted.
Import ListNotations.
Local Open Scope Z_scope.

(** ** What both files share: exceptions and results *)

Inductive exn : Set :=
| AssertionError
| StopIteration
| TypeError
| ValueError
| AttributeError.

Inductive result (A : Type) : Type :=
| Return (a : A)
| Raise (e : exn).
Arguments Return {A} a.
Arguments Raise {A} e.

Definition bind {A B : Type} (r : result A) (k : A -> result B) : result B :=
  match r with
  | Return a => k a
  | Raise e => Raise e
  end.

Notation "x <- r ;; k" := (bind r (fun x => k))
  (at level 61, r at next level, right associativity).

(** [random.randint(a, b)]: an integer of the inclusive range [a..b], and
    [ValueError] when the range is empty.  The entropy is the argument
    [rnd]; every member of the range is the result for some [rnd]. *)
Definition randint (a b rnd : Z) : result Z :=
  if b <? a then Raise ValueError else Return (a + rnd mod (b - a + 1)).

(** [int.bit_length()]. *)
Definition bit_length (z : Z) : Z :=
  if z =? 0 then 0 else Z.log2 (Z.abs z) + 1.

(** The value read as an unsigned 64-bit word. *)
Definition u64 (z : Z) : Z := z mod 2 ^ 64.

(** ** main.py *)

Module Main.

(** A number as [to_timestamp] returns it: an [int], or the [float] that
    the true division of two ints gives (kept as the two operands). *)
Inductive number : Set :=
| Int (z : Z)
| TrueDiv (z d : Z).

Definition to_timestamp (epoch id : Z) (fmt : string) : number :=
  let id := Z.shiftr id 22 in
  let id := id + epoch in
  if String.eqb fmt "s" then TrueDiv id 1000 else Int id.

(** In Python [-] binds tighter than [^], which is exclusive or:
    [2^bits-1] is [2 xor (bits - 1)]. *)
Definition generate_seed (bits rnd : Z) : result Z :=
  randint 1 (Z.lxor 2 (bits - 1)) rnd.

Definition pid_bits : Z := 5.
Definition seed_bits : Z := 5.
Definition sequence_bits : Z := 12.

Definition max_pid : Z := Z.lxor (-1) (Z.shiftl (-1) pid_bits).
Definition max_seed : Z := Z.lxor (-1) (Z.shiftl (-1) seed_bits).
Definition sequence_mask : Z := Z.lxor (-1) (Z.shiftl (-1) sequence_bits).

Definition pid_shift : Z := sequence_bits.
Definition seed_shift : Z := sequence_bits + pid_bits.
Definition timestamp_shift : Z := sequence_bits + pid_bits + seed_bits.

(** The two local variables that live across the [yield]s. *)
Record locals : Set := Locals { last_timestamp : Z; sequence : Z }.

Definition initial : locals := {| last_timestamp := -1; sequence := 0 |}.

(** The expression of the [yield] statement. *)
Definition snowflake (epoch pid seed timestamp sequence : Z) : Z :=
  Z.lor
    (Z.lor
       (Z.lor (Z.shiftl (timestamp - epoch) timestamp_shift)
              (Z.shiftl seed seed_shift))
       (Z.shiftl pid pid_shift))
    sequence.

(** One pass through the body of [while True], from the clock value it
    read: it ends in [sleep(ms); continue] or at the [yield]. *)
Inductive pass : Set :=
| Continue (ms : Z) (l : locals)
| Yield (id : Z) (l : locals).

Definition loop_body (epoch pid seed : Z) (l : locals) (timestamp : Z) : pass :=
  if last_timestamp l >? timestamp then
    Continue (last_timestamp l - timestamp) l
  else if last_timestamp l =? timestamp then
    let sequence := Z.land (sequence l + 1) sequence_mask in
    if sequence =? 0 then
      let sequence := Z.land (-1) sequence_mask in
      Continue 1 {| last_timestamp := last_timestamp l; sequence := sequence |}
    else
      Yield (snowflake epoch pid seed timestamp sequence)
            {| last_timestamp := timestamp; sequence := sequence |}
  else
    let sequence := 0 in
    Yield (snowflake epoch pid seed timestamp sequence)
          {| last_timestamp := timestamp; sequence := sequence |}.

(** The loop run from the locals [l] until its next [yield].  [slept] is
    the list of the arguments [sleep] was called with, [value] the value
    yielded ([None] when the clock readings are used up with the call still
    waiting), [kept] the locals at that point and [unread] the readings
    left. *)
Record resumed : Set := Resumed {
  slept : list Z;
  value : option Z;
  kept : locals;
  unread : list Z
}.

Fixpoint loop (epoch pid seed : Z) (l : locals) (clock : list Z) : resumed :=
  match clock with
  | [] => {| slept := []; value := None; kept := l; unread := [] |}
  | timestamp :: clock' =>
      match loop_body epoch pid seed l timestamp with
      | Continue ms l' =>
          let r := loop epoch pid seed l' clock' in
          {| slept := ms :: slept r; value := value r;
             kept := kept r; unread := unread r |}
      | Yield id l' =>
          {| slept := []; value := Some id; kept := l'; unread := clock' |}
      end
  end.

(** A generator object.  Calling a generator function runs none of its
    body: the object starts [Unstarted], and the code before the loop (the
    two [assert]s and the initialisation of the locals) runs on the first
    [next].  An exception leaves the generator [Finished]. *)
Inductive frame : Set :=
| Unstarted
| Suspended (l : locals)
| Finished.

Record generator : Set := Generator {
  epoch : Z;
  pid : Z;
  seed : Z;
  state : frame
}.

Definition pyflake_generator (epoch pid seed : Z) : generator :=
  {| epoch := epoch; pid := pid; seed := seed; state := Unstarted |}.

Definition finish (g : generator) : generator :=
  {| epoch := epoch g; pid := pid g; seed := seed g; state := Finished |}.

Definition suspend (g : generator) (l : locals) : generator :=
  {| epoch := epoch g; pid := pid g; seed := seed g; state := Suspended l |}.

(** The outcome of one [next(g)]. *)
Inductive outcome : Set :=
| Returned (id : Z)
| Raised (e : exn)
| Waiting.

Record called : Set := Called {
  outcome_of : outcome;
  sleeps : list Z;
  after : generator;
  clock_after : list Z
}.

Definition resume (g : generator) (l : locals) (clock : list Z) : called :=
  let r := loop (epoch g) (pid g) (seed g) l clock in
  {| outcome_of := match value r with Some id => Returned id | None => Waiting end;
     sleeps := slept r;
     after := suspend g (kept r);
     clock_after := unread r |}.

Definition next (g : generator) (clock : list Z) : called :=
  match state g with
  | Finished =>
      {| outcome_of := Raised StopIteration; sleeps := [];
         after := g; clock_after := clock |}
  | Suspended l => resume g l clock
  | Unstarted =>
      if negb ((pid g >=? 0) && (pid g <=? max_pid)) then
        {| outcome_of := Raised AssertionError; sleeps := [];
           after := finish g; clock_after := clock |}
      else if negb ((seed g >=? 0) && (seed g <=? max_seed)) then
        {| outcome_of := Raised AssertionError; sleeps := [];
           after := finish g; clock_after := clock |}
      else resume g initial clock
  end.

(** [PyflakeClient]: the epoch and the [generator] attribute, which
    [destroy] deletes. *)
Record PyflakeClient : Set := Client {
  client_epoch : Z;
  client_generator : option generator
}.

Definition new_client (epoch pid seed : Z) : PyflakeClient :=
  {| client_epoch := epoch;
     client_generator := Some (pyflake_generator epoch pid seed) |}.

Definition destroy (c : PyflakeClient) : PyflakeClient :=
  {| client_epoch := client_epoch c; client_generator := None |}.

Definition create (c : PyflakeClient) (pid seed : Z) : PyflakeClient :=
  match client_generator c with
  | Some _ => c
  | None =>
      {| client_epoch := client_epoch c;
         client_generator := Some (pyflake_generator (client_epoch c) pid seed) |}
  end.

Definition renew (c : PyflakeClient) (pid seed : Z) : PyflakeClient :=
  create (destroy c) pid seed.

(** [generate]: the outcome, the sleeps, the client afterwards and the
    readings left. *)
Definition generate (c : PyflakeClient) (clock : list Z)
  : outcome * list Z * PyflakeClient * list Z :=
  match client_generator c with
  | None => (Raised AttributeError, [], c, clock)
  | Some g =>
      let r := next g clock in
      (outcome_of r, sleeps r,
       {| client_epoch := client_epoch c; client_generator := Some (after r) |},
       clock_after r)
  end.

(** [n] calls of [next] one after the other, each resuming where the one
    before stopped: the identifiers returned, each with the locals kept at
    its [yield].  The run stops at the first call that does not return. *)
Fixpoint history (n : nat) (g : generator) (clock : list Z) : list (Z * locals) :=
  match n with
  | O => []
  | S n' =>
      let r := next g clock in
      match outcome_of r, state (after r) with
      | Returned id, Suspended l => (id, l) :: history n' (after r) (clock_after r)
      | _, _ => []
      end
  end.

Definition calls (n : nat) (g : generator) (clock : list Z) : list Z :=
  map fst (history n g clock).

(** The packing as the specification writes it, for the widths [W], [S]
    and [Q] of the worker, seed and sequence fields. *)
Definition encode (W S Q epoch timestamp_ms worker_id seed sequence : Z) : Z :=
  Z.lor (Z.lor (Z.lor (Z.shiftl (timestamp_ms - epoch) (W + S + Q))
                      (Z.shiftl seed (W + Q)))
               (Z.shiftl worker_id Q))
        sequence.

(** The fields of an identifier. *)
Definition timestamp_field (id : Z) : Z := Z.shiftr id timestamp_shift.
Definition seed_field (id : Z) : Z := Z.land (Z.shiftr id seed_shift) max_seed.
Definition pid_field (id : Z) : Z := Z.land (Z.shiftr id pid_shift) max_pid.
Definition sequence_field (id : Z) : Z := Z.land id sequence_mask.

(** The sequence counter is within its twelve bits. *)
Definition sequence_ok (l : locals) : Prop := 0 <= sequence l <= 4095.

(** The order of the locals: by timestamp, then by sequence. *)
Definition later (l l' : locals) : Prop :=
  last_timestamp l < last_timestamp l' \/
  (last_timestamp l = last_timestamp l' /\ sequence l < sequence l').

(** The identifier that belongs to the locals [l]. *)
Definition id_of (epoch pid seed : Z) (l : locals) : Z :=
  snowflake epoch pid seed (last_timestamp l) (sequence l).

(** What holds of an entry [e] of a run that started from the locals [l]:
    its sequence is in range, its identifier is the one of its locals,
    which are later than [l] and hold a clock reading (one with [P]). *)
Definition entry_ok (epoch pid seed : Z) (P : Z -> Prop) (l : locals)
    (e : Z * locals) : Prop :=
  sequence_ok (snd e) /\ fst e = id_of epoch pid seed (snd e) /\
  later l (snd e) /\ P (last_timestamp (snd e)).

(** The method [PyflakeClient.to_timestamp]. *)
Definition client_to_timestamp (self : PyflakeClient) (id : Z) (fmt : string)
  : number :=
  to_timestamp (client_epoch self) id fmt.

(** The statement [client.renew(generate_seed(5), generate_seed(5))] of the
    script at the end of the file; [rnd1] and [rnd2] are the entropy of the
    two draws, made from left to right. *)
Definition renew_seeded (c : PyflakeClient) (rnd1 rnd2 : Z) : result PyflakeClient :=
  pid <- generate_seed 5 rnd1 ;;
  seed <- generate_seed 5 rnd2 ;;
  Return (renew c pid seed).

(** A use of a client: the method calls made on it, in order. *)
Inductive request : Set :=
| Destroy
| Create (pid seed : Z)
| Renew (pid seed : Z)
| Generate (clock : list Z).

Definition serve (c : PyflakeClient) (r : request) : PyflakeClient :=
  match r with
  | Destroy => destroy c
  | Create pid seed => create c pid seed
  | Renew pid seed => renew c pid seed
  | Generate clock => snd (fst (generate c clock))
  end.

Definition session (c : PyflakeClient) (rs : list request) : PyflakeClient :=
  fold_left serve rs c.

(** A generator that has yielded passed its two [assert]s and keeps its
    sequence within twelve bits; the generator of a client has the
    client's epoch. *)
Definition generator_ok (g : generator) : Prop :=
  match state g with
  | Suspended l => sequence_ok l /\ 0 <= pid g <= 31 /\ 0 <= seed g <= 31
  | _ => True
  end.

Definition client_ok (c : PyflakeClient) : Prop :=
  match client_generator c with
  | Some g => epoch g = client_epoch c /\ generator_ok g
  | None => True
  end.

End Main.

(** ** src/main.py *)

Module SrcMain.

Definition generate_seed (bits rnd : Z) : result Z :=
  randint 1 (Z.lxor 2 (bits - 1)) rnd.

(** The objects that meet in the expression of [Pyflake.snowflake]: an
    [int], or a bound method of the instance (an attribute that names a
    method, read without calling it). *)
Inductive object : Set :=
| PyInt (z : Z)
| PyMethod (name : string).

(** [a << b] and [a | b]: defined between ints; [TypeError] for any other
    pair of operands, [ValueError] for a negative shift count. *)
Definition lshift (a b : object) : result object :=
  match a, b with
  | PyInt x, PyInt n =>
      if n <? 0 then Raise ValueError else Return (PyInt (Z.shiftl x n))
  | _, _ => Raise TypeError
  end.

Definition bitor (a b : object) : result object :=
  match a, b with
  | PyInt x, PyInt y => Return (PyInt (Z.lor x y))
  | _, _ => Raise TypeError
  end.

Record Pyflake : Set := NewPyflake {
  epoch : Z;
  pid : Z;
  seed : Z;
  timestamp : Z;
  sequence : Z
}.

Definition pid_bits (self : Pyflake) : Z := bit_length (pid self).
Definition seed_bits (self : Pyflake) : Z := bit_length (seed self).
Definition sequence_bits (self : Pyflake) : Z := bit_length (sequence self).
Definition pid_shift (self : Pyflake) : Z := sequence_bits self.
Definition seed_shift (self : Pyflake) : Z := pid_shift self + pid_bits self.
Definition timestamp_shift (self : Pyflake) : Z := seed_shift self + seed_bits self.

(** [snowflake]: the shift counts are the attributes [self.timestamp_shift],
    [self.seed_shift] and [self.pid_shift], which are methods and are not
    called.  The operands are evaluated from left to right. *)
Definition snowflake (self : Pyflake) : result object :=
  t <- lshift (PyInt (timestamp self - epoch self)) (PyMethod "timestamp_shift") ;;
  s <- lshift (PyInt (seed self)) (PyMethod "seed_shift") ;;
  ts <- bitor t s ;;
  p <- lshift (PyInt (pid self)) (PyMethod "pid_shift") ;;
  tsp <- bitor ts p ;;
  bitor tsp (PyInt (sequence self)).

Record locals : Set := Locals {
  last_timestamp : Z;
  sequence_now : Z;
  sequence_mask : Z
}.

Inductive pass : Set :=
| Continue (ms : Z) (l : locals)
| Yield (p : Pyflake) (l : locals).

Definition loop_body (epoch pid seed : Z) (l : locals) (timestamp : Z) : pass :=
  if last_timestamp l >? timestamp then
    Continue (last_timestamp l - timestamp) l
  else if last_timestamp l =? timestamp then
    let sequence := Z.land (sequence_now l + 1) (sequence_mask l) in
    if sequence =? 0 then
      let sequence := Z.land (-1) (sequence_mask l) in
      Continue 1 {| last_timestamp := last_timestamp l; sequence_now := sequence;
                    sequence_mask := sequence_mask l |}
    else
      Yield {| epoch := epoch; timestamp := timestamp; pid := pid; seed := seed;
               sequence := sequence |}
            {| last_timestamp := timestamp; sequence_now := sequence;
               sequence_mask := sequence_mask l |}
  else
    let sequence := 0 in
    Yield {| epoch := epoch; timestamp := timestamp; pid := pid; seed := seed;
             sequence := sequence |}
          {| last_timestamp := timestamp; sequence_now := sequence;
             sequence_mask := sequence_mask l |}.

(** The [sleep] argument.  Its default is [lambda x: time.sleep(x / 1000)]
    in a module that binds [time] by [from time import time]: that [time]
    is the function, which has no attribute [sleep]. *)
Definition sleeper : Type := Z -> result unit.
Definition default_sleep : sleeper := fun _ => Raise AttributeError.

Inductive outcome : Set :=
| Returned (p : Pyflake)
| Raised (e : exn)
| Waiting.

Record resumed : Set := Resumed {
  slept : list Z;
  value : outcome;
  kept : locals;
  unread : list Z
}.

Fixpoint loop (epoch pid seed : Z) (sleep : sleeper) (l : locals) (clock : list Z)
  : resumed :=
  match clock with
  | [] => {| slept := []; value := Waiting; kept := l; unread := [] |}
  | timestamp :: clock' =>
      match loop_body epoch pid seed l timestamp with
      | Continue ms l' =>
          match sleep ms with
          | Raise e =>
              {| slept := [ms]; value := Raised e; kept := l'; unread := clock' |}
          | Return _ =>
              let r := loop epoch pid seed sleep l' clock' in
              {| slept := ms :: slept r; value := value r;
                 kept := kept r; unread := unread r |}
          end
      | Yield p l' =>
          {| slept := []; value := Returned p; kept := l'; unread := clock' |}
      end
  end.

Inductive frame : Set :=
| Unstarted
| Suspended (l : locals)
| Finished.

Record generator : Type := Generator {
  g_epoch : Z;
  g_pid : Z;
  g_seed : Z;
  g_sequence_bits : Z;
  g_sleep : sleeper;
  state : frame
}.

(** The call [pyflake_generator(epoch, pid, seed, sequence_bits, sleep)].
    [sequence_bits] has no default: a call that leaves it out ([None])
    raises [TypeError]; [sleep] left out is the default. *)
Definition pyflake_generator (epoch pid seed : Z) (sequence_bits : option Z)
    (sleep : option sleeper) : result generator :=
  match sequence_bits with
  | None => Raise TypeError
  | Some bits =>
      Return {| g_epoch := epoch; g_pid := pid; g_seed := seed;
                g_sequence_bits := bits;
                g_sleep := match sleep with Some f => f | None => default_sleep end;
                state := Unstarted |}
  end.

Definition set_state (g : generator) (s : frame) : generator :=
  {| g_epoch := g_epoch g; g_pid := g_pid g; g_seed := g_seed g;
     g_sequence_bits := g_sequence_bits g; g_sleep := g_sleep g; state := s |}.

Record called : Type := Called {
  outcome_of : outcome;
  sleeps : list Z;
  after : generator;
  clock_after : list Z
}.

Definition resume (g : generator) (l : locals) (clock : list Z) : called :=
  let r := loop (g_epoch g) (g_pid g) (g_seed g) (g_sleep g) l clock in
  {| outcome_of := value r;
     sleeps := slept r;
     after := set_state g (match value r with
                           | Raised _ => Finished
                           | _ => Suspended (kept r)
                           end);
     clock_after := unread r |}.

Definition next (g : generator) (clock : list Z) : called :=
  match state g with
  | Finished =>
      {| outcome_of := Raised StopIteration; sleeps := [];
         after := g; clock_after := clock |}
  | Suspended l => resume g l clock
  | Unstarted =>
      if g_sequence_bits g <? 0 then
        {| outcome_of := Raised ValueError; sleeps := [];
           after := set_state g Finished; clock_after := clock |}
      else
        resume g {| last_timestamp := -1; sequence_now := 0;
                    sequence_mask :=
                      Z.lxor (-1) (Z.shiftl (-1) (g_sequence_bits g)) |}
               clock
  end.

(** [PyflakeClient]: [pid], [seed] and [generator] are attributes that
    exist only between [create_generator] and [destroy_generator]. *)
Record PyflakeClient : Type := Client {
  client_epoch : Z;
  _generated : Z;
  _cache : list (Z * Pyflake);
  client_pid : option Z;
  client_seed : option Z;
  client_generator : option generator
}.

Definition new_client (epoch : Z) : PyflakeClient :=
  {| client_epoch := epoch; _generated := 0; _cache := [];
     client_pid := None; client_seed := None; client_generator := None |}.

(** [destroy_generator]: with a generator, the three [delattr] in their
    order; [delattr] of an attribute that does not exist raises
    [AttributeError] and leaves the deletions made before it in place. *)
Definition destroy_generator (self : PyflakeClient) : result unit * PyflakeClient :=
  match client_generator self with
  | Some g =>
      match client_pid self with
      | None => (Raise AttributeError, self)
      | Some _ =>
          match client_seed self with
          | None =>
              (Raise AttributeError,
               {| client_epoch := client_epoch self;
                  _generated := _generated self; _cache := _cache self;
                  client_pid := None; client_seed := None;
                  client_generator := Some g |})
          | Some _ =>
              (Return tt,
               {| client_epoch := client_epoch self;
                  _generated := _generated self; _cache := _cache self;
                  client_pid := None; client_seed := None;
                  client_generator := None |})
          end
      end
  | None => (Raise AttributeError, self)
  end.

(** [create_generator] sets [pid] and [seed] and then calls
    [pyflake_generator(self.epoch, pid, seed)], with three arguments. *)
Definition create_generator (self : PyflakeClient) (pid seed : Z)
  : result unit * PyflakeClient :=
  match client_generator self with
  | None =>
      let self' :=
        {| client_epoch := client_epoch self; _generated := _generated self;
           _cache := _cache self;
           client_pid := Some pid; client_seed := Some seed;
           client_generator := None |} in
      match pyflake_generator (client_epoch self) pid seed None None with
      | Raise e => (Raise e, self')
      | Return g =>
          (Return tt,
           {| client_epoch := client_epoch self; _generated := _generated self;
              _cache := _cache self;
              client_pid := Some pid; client_seed := Some seed;
              client_generator := Some g |})
      end
  | Some _ => (Raise AttributeError, self)
  end.

Definition renew_generator (self : PyflakeClient) (pid seed : Z)
  : result unit * PyflakeClient :=
  match destroy_generator self with
  | (Raise AttributeError, self') => create_generator self' pid seed
  | (Raise e, self') => (Raise e, self')
  | (Return _, self') => create_generator self' pid seed
  end.

(** [generate]: [next(self.generator)], then the cache entry keyed by
    [res.snowflake()], then the counter. *)
Definition generate (self : PyflakeClient) (clock : list Z)
  : outcome * PyflakeClient * list Z :=
  match client_generator self with
  | None => (Raised AttributeError, self, clock)
  | Some g =>
      let r := next g clock in
      let self1 :=
        {| client_epoch := client_epoch self; _generated := _generated self;
           _cache := _cache self;
           client_pid := client_pid self; client_seed := client_seed self;
           client_generator := Some (after r) |} in
      match outcome_of r with
      | Returned res =>
          match snowflake res with
          | Raise e => (Raised e, self1, clock_after r)
          | Return (PyInt key) =>
              (Returned res,
               {| client_epoch := client_epoch self;
                  _generated := _generated self + 1;
                  _cache := (key, res) :: _cache self;
                  client_pid := client_pid self; client_seed := client_seed self;
                  client_generator := Some (after r) |},
               clock_after r)
          | Return (PyMethod _) => (Raised TypeError, self1, clock_after r)
          end
      | Raised e => (Raised e, self1, clock_after r)
      | Waiting => (Waiting, self1, clock_after r)
      end
  end.

(** [validate]: the [assert] on the sum of the four bit lengths; [epoch]
    is not used. *)
Definition validate (self : PyflakeClient) (epoch timestamp pid seed sequence : Z)
  : result unit :=
  let bits := bit_length timestamp + bit_length pid + bit_length seed
              + bit_length sequence in
  if (0 <? bits) && (bits <=? 64) then Return tt else Raise AssertionError.

(** The dictionary that [get_info] returns. *)
Record info : Set := Info {
  info_epoch : Z;
  info_pid : option Z;
  info_seed : option Z;
  info_generated : Z;
  info_generator : bool
}.

Definition get_info (self : PyflakeClient) : info :=
  {| info_epoch := client_epoch self;
     info_pid := client_pid self;
     info_seed := client_seed self;
     info_generated := _generated self;
     info_generator := match client_generator self with
                       | Some _ => true
                       | None => false
                       end |}.

(** [n] calls of [next] one after the other: the records returned.  The
    run stops at the first call that does not return. *)
Fixpoint history (n : nat) (g : generator) (clock : list Z) : list Pyflake :=
  match n with
  | O => []
  | S n' =>
      let r := next g clock in
      match outcome_of r with
      | Returned p => p :: history n' (after r) (clock_after r)
      | _ => []
      end
  end.

(** The order of the records: by timestamp, then by sequence. *)
Definition before (a b : Pyflake) : Prop :=
  timestamp a < timestamp b \/
  (timestamp a = timestamp b /\ sequence a < sequence b).

(** A use of a client: the method calls made on it, in order. *)
Inductive request : Set :=
| DestroyGenerator
| CreateGenerator (pid seed : Z)
| RenewGenerator (pid seed : Z)
| Generate (clock : list Z).

Definition serve (self : PyflakeClient) (r : request) : PyflakeClient :=
  match r with
  | DestroyGenerator => snd (destroy_generator self)
  | CreateGenerator pid seed => snd (create_generator self pid seed)
  | RenewGenerator pid seed => snd (renew_generator self pid seed)
  | Generate clock => snd (fst (generate self clock))
  end.

Definition session (self : PyflakeClient) (rs : list request) : PyflakeClient :=
  fold_left serve rs self.

End SrcMain.

(** * Properties *)

(** ** The codec *)

Section Codec.

(** A value below [2^n] shares no bit with a value shifted left by [n]:
    the bitwise or of the two is their sum. *)
Lemma lor_shiftl_low (a n b : Z) :
  0 <= n -> 0 <= b < 2 ^ n -> Z.lor (Z.shiftl a n) b = a * 2 ^ n + b.
Proof.
  intros Hn Hb.
  assert (Hdisj : Z.land (Z.shiftl a n) b = 0).
  { apply Z.bits_inj'. intros k Hk.
    rewrite Z.land_spec, Z.bits_0.
    destruct (Z.lt_ge_cases k n) as [Hlt | Hge].
    - rewrite Z.shiftl_spec_low by assumption. reflexivity.
    - rewrite <- (Z.mod_small b (2 ^ n)) by assumption.
      rewrite Z.mod_pow2_bits_high by lia.
      apply andb_false_r. }
  rewrite <- Z.lxor_lor by assumption.
  rewrite <- Z.add_nocarry_lxor by assumption.
  rewrite Z.shiftl_mul_pow2 by assumption. reflexivity.
Qed.

Lemma masks :
  Main.max_pid = 31 /\ Main.max_seed = 31 /\ Main.sequence_mask = 4095.
Proof. repeat split; reflexivity. Qed.

(** Within the field widths the yielded value is the weighted sum of its
    four fields. *)
Lemma snowflake_sum (epoch pid seed timestamp sequence : Z) :
  0 <= pid <= 31 -> 0 <= seed <= 31 -> 0 <= sequence <= 4095 ->
  Main.snowflake epoch pid seed timestamp sequence
  = (timestamp - epoch) * 4194304 + seed * 131072 + pid * 4096 + sequence.
Proof.
  intros Hp Hs Hq. unfold Main.snowflake.
  unfold Main.timestamp_shift, Main.seed_shift, Main.pid_shift,
    Main.sequence_bits, Main.pid_bits, Main.seed_bits. simpl Z.add.
  rewrite <- !Z.lor_assoc.
  rewrite (lor_shiftl_low pid 12 sequence) by (simpl; lia).
  rewrite (lor_shiftl_low seed 17) by (simpl; lia).
  rewrite (lor_shiftl_low (timestamp - epoch) 22) by (simpl; lia).
  change (2 ^ 22) with 4194304. change (2 ^ 17) with 131072.
  change (2 ^ 12) with 4096. lia.
Qed.

Lemma land_31 (x : Z) : Z.land x 31 = x mod 32.
Proof. change 31 with (Z.ones 5). rewrite Z.land_ones by lia. reflexivity. Qed.

Lemma land_4095 (x : Z) : Z.land x 4095 = x mod 4096.
Proof. change 4095 with (Z.ones 12). rewrite Z.land_ones by lia. reflexivity. Qed.

Lemma fields_of_sum (d s p q : Z) :
  0 <= p <= 31 -> 0 <= s <= 31 -> 0 <= q <= 4095 ->
  let id := d * 4194304 + s * 131072 + p * 4096 + q in
  Main.timestamp_field id = d /\ Main.seed_field id = s /\
  Main.pid_field id = p /\ Main.sequence_field id = q.
Proof.
  intros Hp Hs Hq id.
  unfold Main.timestamp_field, Main.seed_field, Main.pid_field,
    Main.sequence_field.
  destruct masks as (-> & -> & ->).
  unfold Main.timestamp_shift, Main.seed_shift, Main.pid_shift,
    Main.sequence_bits, Main.pid_bits, Main.seed_bits. simpl Z.add.
  rewrite !Z.shiftr_div_pow2 by lia. rewrite !land_31, land_4095.
  change (2 ^ 22) with 4194304. change (2 ^ 17) with 131072.
  change (2 ^ 12) with 4096. subst id.
  assert (H22 : (d * 4194304 + s * 131072 + p * 4096 + q) / 4194304 = d).
  { symmetry. apply (Z.div_unique_pos _ _ _ (s * 131072 + p * 4096 + q)); lia. }
  assert (H17 : (d * 4194304 + s * 131072 + p * 4096 + q) / 131072 = d * 32 + s).
  { symmetry. apply (Z.div_unique_pos _ _ _ (p * 4096 + q)); lia. }
  assert (H12 : (d * 4194304 + s * 131072 + p * 4096 + q) / 4096
                = (d * 32 + s) * 32 + p).
  { symmetry. apply (Z.div_unique_pos _ _ _ q); lia. }
  rewrite H22, H17, H12. repeat split.
  - symmetry. apply (Z.mod_unique_pos _ _ d); lia.
  - symmetry. apply (Z.mod_unique_pos _ _ (d * 32 + s)); lia.
  - symmetry. apply (Z.mod_unique_pos _ _ (d * 1024 + s * 32 + p)); lia.
Qed.

End Codec.

(** ** The loop of the generator *)

Section Loop.

Variables epoch pid seed : Z.

Local Abbreviation id_of := (Main.id_of epoch pid seed).
Local Abbreviation sequence_ok := Main.sequence_ok.
Local Abbreviation later := Main.later.

Lemma increment_masked (q : Z) :
  0 <= q <= 4095 ->
  Z.land (q + 1) Main.sequence_mask = if q =? 4095 then 0 else q + 1.
Proof.
  intros Hq. destruct masks as (_ & _ & ->). rewrite land_4095.
  destruct (Z.eqb_spec q 4095) as [-> | Hne]; [reflexivity |].
  apply Z.mod_small. lia.
Qed.

(** What one pass does, by the three cases of the clock value read. *)
Lemma loop_body_backward (l : Main.locals) (t : Z) :
  t < Main.last_timestamp l ->
  Main.loop_body epoch pid seed l t = Main.Continue (Main.last_timestamp l - t) l.
Proof.
  intros Hlt. unfold Main.loop_body.
  destruct (Z.gtb_spec (Main.last_timestamp l) t); [reflexivity | lia].
Qed.

Lemma loop_body_same (l : Main.locals) (t : Z) :
  Main.last_timestamp l = t ->
  Main.loop_body epoch pid seed l t =
  if Z.land (Main.sequence l + 1) Main.sequence_mask =? 0 then
    Main.Continue 1 {| Main.last_timestamp := t; Main.sequence := 4095 |}
  else
    Main.Yield
      (Main.snowflake epoch pid seed t
         (Z.land (Main.sequence l + 1) Main.sequence_mask))
      {| Main.last_timestamp := t;
         Main.sequence := Z.land (Main.sequence l + 1) Main.sequence_mask |}.
Proof.
  intros <-. unfold Main.loop_body.
  destruct (Z.gtb_spec (Main.last_timestamp l) (Main.last_timestamp l)); [lia |].
  rewrite Z.eqb_refl. reflexivity.
Qed.

Lemma loop_body_forward (l : Main.locals) (t : Z) :
  Main.last_timestamp l < t ->
  Main.loop_body epoch pid seed l t =
  Main.Yield (Main.snowflake epoch pid seed t 0)
             {| Main.last_timestamp := t; Main.sequence := 0 |}.
Proof.
  intros Hlt. unfold Main.loop_body.
  destruct (Z.gtb_spec (Main.last_timestamp l) t); [lia |].
  destruct (Z.eqb_spec (Main.last_timestamp l) t); [lia | reflexivity].
Qed.

(** A pass that does not yield leaves the locals as they were; a pass
    that yields moves them strictly up. *)
Lemma loop_body_continue (l l' : Main.locals) (t ms : Z) :
  sequence_ok l ->
  Main.loop_body epoch pid seed l t = Main.Continue ms l' ->
  l' = l /\
  ((t < Main.last_timestamp l /\ ms = Main.last_timestamp l - t) \/
   (t = Main.last_timestamp l /\ Main.sequence l = 4095 /\ ms = 1)).
Proof.
  intros Hq Hb.
  destruct (Z.lt_trichotomy t (Main.last_timestamp l)) as [Hlt | [Heq | Hgt]].
  - rewrite loop_body_backward in Hb by assumption.
    injection Hb as <- <-. auto.
  - rewrite loop_body_same in Hb by auto.
    rewrite increment_masked in Hb by assumption.
    destruct (Z.eqb_spec (Main.sequence l) 4095) as [H4095 | Hne].
    + simpl in Hb. injection Hb as <- <-. split.
      * destruct l as [lt q]; simpl in *. subst. reflexivity.
      * right. auto.
    + destruct (Z.eqb_spec (Main.sequence l + 1) 0); [unfold Main.sequence_ok in Hq; lia |].
      discriminate Hb.
  - rewrite loop_body_forward in Hb by assumption. discriminate Hb.
Qed.

Lemma loop_body_yield (l l' : Main.locals) (t id : Z) :
  sequence_ok l ->
  Main.loop_body epoch pid seed l t = Main.Yield id l' ->
  sequence_ok l' /\ later l l' /\ Main.last_timestamp l' = t /\ id = id_of l' /\
  ((Main.last_timestamp l < t /\ Main.sequence l' = 0) \/
   (Main.last_timestamp l = t /\ Main.sequence l' = Main.sequence l + 1)).
Proof.
  intros Hq Hb. unfold Main.sequence_ok in *.
  destruct (Z.lt_trichotomy t (Main.last_timestamp l)) as [Hlt | [Heq | Hgt]].
  - rewrite loop_body_backward in Hb by assumption. discriminate Hb.
  - rewrite loop_body_same in Hb by auto.
    rewrite increment_masked in Hb by assumption.
    destruct (Z.eqb_spec (Main.sequence l) 4095) as [H4095 | Hne];
      [discriminate Hb |].
    destruct (Z.eqb_spec (Main.sequence l + 1) 0); [lia |].
    injection Hb as <- <-. unfold Main.later, Main.id_of. simpl. repeat split; lia || auto.
  - rewrite loop_body_forward in Hb by assumption.
    injection Hb as <- <-. unfold Main.later, Main.id_of. simpl. repeat split; lia || auto.
Qed.

(** The loop up to its next [yield]. *)
Lemma loop_yield (clock : list Z) : forall (l : Main.locals) (id : Z),
  sequence_ok l ->
  Main.value (Main.loop epoch pid seed l clock) = Some id ->
  let l' := Main.kept (Main.loop epoch pid seed l clock) in
  sequence_ok l' /\ later l l' /\ id = id_of l'.
Proof.
  induction clock as [| t clock IH]; intros l id Hq Hv; simpl in *.
  - discriminate Hv.
  - destruct (Main.loop_body epoch pid seed l t) as [ms l1 | id1 l1] eqn:Hb.
    + apply loop_body_continue in Hb; [| assumption].
      destruct Hb as [-> _]. simpl in *. apply IH; assumption.
    + apply loop_body_yield in Hb; [| assumption].
      simpl in *. injection Hv as <-. tauto.
Qed.

(** Readings behind [last_timestamp] are slept through, each for the
    distance to [last_timestamp], with nothing yielded and the locals
    untouched. *)
Lemma loop_behind (behind rest : list Z) (l : Main.locals) :
  Forall (fun now => now < Main.last_timestamp l) behind ->
  let r := Main.loop epoch pid seed l rest in
  Main.loop epoch pid seed l (behind ++ rest) =
  {| Main.slept := map (fun now => Main.last_timestamp l - now) behind
                   ++ Main.slept r;
     Main.value := Main.value r;
     Main.kept := Main.kept r;
     Main.unread := Main.unread r |}.
Proof.
  induction 1 as [| now behind Hnow _ IH]; simpl.
  - destruct (Main.loop epoch pid seed l rest); reflexivity.
  - rewrite loop_body_backward by assumption. rewrite IH. reflexivity.
Qed.

(** The loop yields as soon as the clock has passed [last_timestamp]. *)
Lemma loop_progress (clock : list Z) : forall (l : Main.locals),
  Exists (fun now => Main.last_timestamp l < now) clock ->
  sequence_ok l ->
  exists id, Main.value (Main.loop epoch pid seed l clock) = Some id.
Proof.
  induction clock as [| t clock IH]; intros l Hex Hq.
  - inversion Hex.
  - simpl. destruct (Main.loop_body epoch pid seed l t) as [ms l1 | id1 l1] eqn:Hb.
    + simpl. apply loop_body_continue in Hb; [| assumption].
      destruct Hb as [-> Hcase]. apply IH; [| assumption].
      inversion Hex as [? ? Hnow | ? ? Hlater]; subst; [lia | assumption].
    + simpl. eauto.
Qed.

(** The locals at a [yield] hold the clock value that was read, and the
    readings left are among those given. *)
Lemma loop_reading (P : Z -> Prop) (clock : list Z) : forall (l : Main.locals),
  Forall P clock ->
  Main.value (Main.loop epoch pid seed l clock) <> None ->
  P (Main.last_timestamp (Main.kept (Main.loop epoch pid seed l clock))) /\
  Forall P (Main.unread (Main.loop epoch pid seed l clock)).
Proof.
  induction clock as [| t clock IH]; intros l HP Hv; simpl in *.
  - congruence.
  - inversion HP as [| ? ? Ht Hclock]; subst.
    destruct (Main.loop_body epoch pid seed l t) as [ms l1 | id1 l1] eqn:Hb;
      simpl in *.
    + apply IH; assumption.
    + split; [| assumption].
      unfold Main.loop_body in Hb.
      destruct (Main.last_timestamp l >? t); [discriminate Hb |].
      destruct (Main.last_timestamp l =? t).
      * destruct (Z.land (Main.sequence l + 1) Main.sequence_mask =? 0);
          [discriminate Hb |].
        injection Hb as <- <-. assumption.
      * injection Hb as <- <-. assumption.
Qed.

(** The identifier grows with the locals. *)
Lemma id_of_sum (l : Main.locals) :
  0 <= pid <= 31 -> 0 <= seed <= 31 -> sequence_ok l ->
  id_of l = (Main.last_timestamp l - epoch) * 4194304 + seed * 131072
            + pid * 4096 + Main.sequence l.
Proof. intros Hp Hs Hq. unfold Main.id_of. apply snowflake_sum; assumption. Qed.

Lemma id_of_later (l l' : Main.locals) :
  0 <= pid <= 31 -> 0 <= seed <= 31 ->
  sequence_ok l -> sequence_ok l' -> later l l' -> id_of l < id_of l'.
Proof.
  intros Hp Hs Hq Hq' Hl. rewrite !id_of_sum by assumption.
  unfold Main.sequence_ok, Main.later in *. lia.
Qed.

Lemma later_trans (a b c : Main.locals) : later a b -> later b c -> later a c.
Proof. unfold Main.later. lia. Qed.

End Loop.

(** ** Runs of calls *)

Section Runs.

Variables epoch pid seed : Z.

Local Abbreviation fresh := (Main.pyflake_generator epoch pid seed).
Local Abbreviation at_yield l := (Main.Generator epoch pid seed (Main.Suspended l)).

(** The two [assert]s, as the first [next] evaluates them. *)
Lemma asserts_spec :
  (pid >=? 0) && (pid <=? Main.max_pid) = true /\
  (seed >=? 0) && (seed <=? Main.max_seed) = true
  <-> 0 <= pid <= 31 /\ 0 <= seed <= 31.
Proof.
  destruct masks as (-> & -> & _).
  rewrite !andb_true_iff, !Z.geb_le, !Z.leb_le. tauto.
Qed.

Lemma next_fresh_valid (clock : list Z) :
  0 <= pid <= 31 -> 0 <= seed <= 31 ->
  Main.next fresh clock = Main.next (at_yield Main.initial) clock.
Proof.
  intros Hp Hs. destruct (proj2 asserts_spec (conj Hp Hs)) as [Ha Hb].
  unfold Main.next. cbn [Main.state Main.pyflake_generator Main.pid Main.seed].
  rewrite Ha, Hb. reflexivity.
Qed.

Lemma next_fresh_invalid (clock : list Z) :
  ~ (0 <= pid <= 31 /\ 0 <= seed <= 31) ->
  Main.next fresh clock =
  {| Main.outcome_of := Main.Raised AssertionError; Main.sleeps := [];
     Main.after := Main.finish fresh; Main.clock_after := clock |}.
Proof.
  intros Hbad. unfold Main.next.
  cbn [Main.state Main.pyflake_generator Main.pid Main.seed].
  destruct ((pid >=? 0) && (pid <=? Main.max_pid)) eqn:Ha; [| reflexivity].
  destruct ((seed >=? 0) && (seed <=? Main.max_seed)) eqn:Hb; [| reflexivity].
  exfalso. apply Hbad. apply asserts_spec. auto.
Qed.

(** A fresh generator either fails its first call, or runs as from the
    initial locals. *)
Lemma history_fresh (n : nat) (clock : list Z) :
  (Main.history n fresh clock = [] /\ ~ (0 <= pid <= 31 /\ 0 <= seed <= 31)) \/
  (Main.history n fresh clock = Main.history n (at_yield Main.initial) clock /\
   0 <= pid <= 31 /\ 0 <= seed <= 31).
Proof.
  assert (Hdec : (0 <= pid <= 31 /\ 0 <= seed <= 31) \/
                 ~ (0 <= pid <= 31 /\ 0 <= seed <= 31)) by lia.
  destruct Hdec as [[Hp Hs] | Hbad].
  - right. split; [| auto]. destruct n as [| n]; [reflexivity |].
    cbn [Main.history]. rewrite next_fresh_valid by assumption. reflexivity.
  - left. split; [| assumption]. destruct n as [| n]; [reflexivity |].
    cbn [Main.history]. rewrite next_fresh_invalid by assumption. reflexivity.
Qed.

(** Every entry of a run from the locals [l] is in order, and so are the
    entries among themselves. *)
Lemma history_at_yield (P : Z -> Prop) (n : nat) :
  forall (l : Main.locals) (clock : list Z),
  Main.sequence_ok l -> Forall P clock ->
  Forall (Main.entry_ok epoch pid seed P l) (Main.history n (at_yield l) clock) /\
  StronglySorted (fun a b => Main.later (snd a) (snd b))
                 (Main.history n (at_yield l) clock).
Proof.
  induction n as [| n IH]; intros l clock Hq HP.
  - split; constructor.
  - cbn [Main.history]. unfold Main.next. cbn [Main.state].
    unfold Main.resume.
    cbn [Main.outcome_of Main.after Main.clock_after Main.epoch Main.pid Main.seed].
    destruct (Main.value (Main.loop epoch pid seed l clock)) as [id |] eqn:Hv;
      cbn [Main.state Main.suspend]; [| split; constructor].
    destruct (loop_yield epoch pid seed clock l id Hq Hv) as (Hq' & Hl & Hid).
    destruct (loop_reading epoch pid seed P clock l HP) as [HPl HPu];
      [congruence |].
    destruct (IH _ _ Hq' HPu) as [Hall Hsorted].
    unfold Main.suspend in *. cbn [Main.epoch Main.pid Main.seed] in *.
    split.
    + constructor; [exact (conj Hq' (conj Hid (conj Hl HPl))) |].
      eapply Forall_impl; [| exact Hall].
      intros e (He1 & He2 & He3 & He4).
      refine (conj He1 (conj He2 (conj _ He4))).
      eapply later_trans; eassumption.
    + constructor; [assumption |].
      eapply Forall_impl; [| exact Hall].
      intros e (He1 & He2 & He3 & He4). assumption.
Qed.

End Runs.

(** ** Decoding what was encoded *)

Lemma to_timestamp_sum (epoch d s p q : Z) :
  0 <= p <= 31 -> 0 <= s <= 31 -> 0 <= q <= 4095 ->
  Main.to_timestamp epoch (d * 4194304 + s * 131072 + p * 4096 + q) "ms"
  = Main.Int (d + epoch).
Proof.
  intros Hp Hs Hq.
  destruct (fields_of_sum d s p q Hp Hs Hq) as (Ht & _).
  unfold Main.to_timestamp. cbn [String.eqb Ascii.eqb Bool.eqb].
  change (Z.shiftr (d * 4194304 + s * 131072 + p * 4096 + q) 22)
    with (Main.timestamp_field (d * 4194304 + s * 131072 + p * 4096 + q)).
  rewrite Ht. reflexivity.
Qed.

(** C2.  Round trip: for [timestamp >= epoch] and a worker id, a seed and a
    sequence within 5, 5 and 12 bits, [to_timestamp] with the same epoch and
    the default unit ["ms"] gives the timestamp back from the packed
    identifier, which is the value the generator yields for these fields. *)
Theorem to_timestamp_roundtrip (epoch timestamp worker_id seed sequence : Z) :
  timestamp >= epoch ->
  0 <= worker_id < 2 ^ 5 -> 0 <= seed < 2 ^ 5 -> 0 <= sequence < 2 ^ 12 ->
  let id := Z.lor (Z.lor (Z.lor (Z.shiftl (timestamp - epoch) 22)
                                (Z.shiftl seed 17))
                         (Z.shiftl worker_id 12))
                  sequence in
  Main.snowflake epoch worker_id seed timestamp sequence = id /\
  Main.to_timestamp epoch id "ms" = Main.Int timestamp.
Proof.
  intros _ Hw Hs Hq id.
  change (2 ^ 5) with 32 in *. change (2 ^ 12) with 4096 in *.
  split; [reflexivity |].
  change id with (Main.snowflake epoch worker_id seed timestamp sequence).
  rewrite (snowflake_sum epoch worker_id seed timestamp sequence) by lia.
  rewrite to_timestamp_sum by lia. f_equal. lia.
Qed.

Lemma to_timestamp_roundtrip_witness :
  Main.to_timestamp 1600000000000
    (Z.lor (Z.lor (Z.lor (Z.shiftl (1600000005000 - 1600000000000) 22)
                         (Z.shiftl 7 17))
                  (Z.shiftl 3 12))
           9)
    "ms" = Main.Int 1600000005000.
Proof.
  apply (to_timestamp_roundtrip 1600000000000 1600000005000 3 7 9).
  - lia.
  - simpl; lia.
  - simpl; lia.
  - simpl; lia.
Defined.

(** ** Runs of a fresh generator *)

(** What every run of a fresh generator satisfies; [P] is any property of
    the clock readings. *)
Lemma run_facts (epoch pid seed : Z) (P : Z -> Prop) (n : nat) (clock : list Z) :
  Forall P clock ->
  let h := Main.history n (Main.pyflake_generator epoch pid seed) clock in
  h = [] \/
  (0 <= pid <= 31 /\ 0 <= seed <= 31 /\
   Forall (Main.entry_ok epoch pid seed P Main.initial) h /\
   StronglySorted (fun a b => Main.later (snd a) (snd b)) h).
Proof.
  intros HP h. subst h.
  destruct (history_fresh epoch pid seed n clock) as [[-> _] | (-> & Hp & Hs)];
    [left; reflexivity | right].
  assert (Hq : Main.sequence_ok Main.initial) by (unfold Main.sequence_ok; simpl; lia).
  destruct (history_at_yield epoch pid seed P n Main.initial clock Hq HP).
  auto.
Qed.

Lemma entries_sorted (epoch pid seed : Z) (P : Z -> Prop) (l : Main.locals)
    (h : list (Z * Main.locals)) :
  0 <= pid <= 31 -> 0 <= seed <= 31 ->
  Forall (Main.entry_ok epoch pid seed P l) h ->
  StronglySorted (fun a b => Main.later (snd a) (snd b)) h ->
  StronglySorted Z.lt (map fst h).
Proof.
  intros Hp Hs Hall Hsorted.
  induction Hsorted as [| a h Hsorted IH Hlater]; simpl; [constructor |].
  inversion Hall as [| ? ? Ha Hh]; subst.
  constructor; [apply IH; assumption |].
  apply Forall_forall. intros id Hin.
  apply in_map_iff in Hin. destruct Hin as (b & <- & Hb).
  rewrite Forall_forall in Hlater, Hh.
  destruct Ha as (Hqa & -> & _). destruct (Hh b Hb) as (Hqb & -> & _).
  apply id_of_later; auto.
Qed.

Lemma sorted_nodup (xs : list Z) : StronglySorted Z.lt xs -> NoDup xs.
Proof.
  induction 1 as [| x xs _ IH Hall]; constructor; [| assumption].
  intros Hin. rewrite Forall_forall in Hall. specialize (Hall x Hin). lia.
Qed.

Lemma u64_small (xs : list Z) :
  Forall (fun x => 0 <= x < 2 ^ 64) xs -> map u64 xs = xs.
Proof.
  induction 1 as [| x xs Hx _ IH]; simpl; [reflexivity |].
  rewrite IH. unfold u64. rewrite Z.mod_small by assumption. reflexivity.
Qed.

(** A strictly increasing list of integers of the interval [a, b) has at
    most [b - a] members. *)
Lemma sorted_interval_length (xs : list Z) : forall (a b : Z),
  a <= b -> StronglySorted Z.lt xs -> Forall (fun x => a <= x < b) xs ->
  Z.of_nat (List.length xs) <= b - a.
Proof.
  induction xs as [| x xs IH]; intros a b Hab Hsorted Hall; cbn [List.length].
  - simpl. lia.
  - inversion Hsorted as [| ? ? Hs Hx]; subst.
    inversion Hall as [| ? ? Hxa Hxs]; subst.
    assert (Hlen : Z.of_nat (List.length xs) <= b - (x + 1)).
    { apply IH; [lia | assumption |].
      rewrite Forall_forall in *. intros y Hy.
      specialize (Hx y Hy). specialize (Hxs y Hy). lia. }
    lia.
Qed.

Lemma sorted_filter (f : Z -> bool) (xs : list Z) :
  StronglySorted Z.lt xs -> StronglySorted Z.lt (filter f xs).
Proof.
  induction 1 as [| x xs _ IH Hall]; simpl; [constructor |].
  destruct (f x); [| assumption].
  constructor; [assumption |].
  rewrite Forall_forall in *. intros y Hy.
  apply filter_In in Hy. apply Hall. tauto.
Qed.

(** On a clock that advances at every reading each call returns at once:
    as many identifiers as calls. *)
Lemma history_advancing (epoch pid seed : Z) (clock : list Z) :
  forall l : Main.locals,
  StronglySorted Z.lt clock ->
  Forall (fun now => Main.last_timestamp l < now) clock ->
  List.length (Main.history (List.length clock)
                 (Main.Generator epoch pid seed (Main.Suspended l)) clock)
  = List.length clock.
Proof.
  induction clock as [| t clock IH]; intros l Hsorted Hall; [reflexivity |].
  inversion Hsorted as [| ? ? Hs Ht]; subst.
  inversion Hall as [| ? ? Hlt _]; subst.
  cbn [List.length Main.history]. unfold Main.next. cbn [Main.state].
  unfold Main.resume. cbn [Main.loop Main.epoch Main.pid Main.seed].
  rewrite loop_body_forward by assumption.
  cbn [Main.outcome_of Main.value Main.after Main.kept Main.suspend Main.state
       Main.clock_after Main.unread Main.epoch Main.pid Main.seed List.length].
  f_equal. apply IH; assumption.
Qed.

Lemma calls_advancing (epoch pid seed : Z) (clock : list Z) :
  0 <= pid <= 31 -> 0 <= seed <= 31 ->
  StronglySorted Z.lt clock -> Forall (fun now => 0 <= now) clock ->
  List.length (Main.calls (List.length clock)
                 (Main.pyflake_generator epoch pid seed) clock)
  = List.length clock.
Proof.
  intros Hp Hs Hsorted Hall. unfold Main.calls. rewrite length_map.
  destruct (history_fresh epoch pid seed (List.length clock) clock)
    as [[_ Hbad] | [-> _]]; [tauto |].
  apply history_advancing; [assumption |].
  eapply Forall_impl; [| exact Hall]. simpl. intros; lia.
Qed.

(** ** Monotonicity and uniqueness *)

(** C1.  The identifiers that the successive calls on one generator return
    are strictly increasing, hence pairwise distinct; while the clock stays
    within the 42 bits above the epoch they are non-negative and below
    [2^64], so the order is also that of the unsigned 64-bit values. *)
Theorem calls_strictly_increasing (epoch pid seed : Z) (n : nat) (clock : list Z) :
  let ids := Main.calls n (Main.pyflake_generator epoch pid seed) clock in
  StronglySorted Z.lt ids /\ NoDup ids /\
  (Forall (fun now => epoch <= now < epoch + 2 ^ 42) clock ->
   Forall (fun id => 0 <= id < 2 ^ 64) ids /\ StronglySorted Z.lt (map u64 ids)).
Proof.
  intros ids.
  assert (Hsorted : StronglySorted Z.lt ids).
  { subst ids. unfold Main.calls.
    destruct (run_facts epoch pid seed (fun _ => True) n clock)
      as [-> | (Hp & Hs & Hall & Hord)].
    - apply Forall_forall. auto.
    - constructor.
    - apply (entries_sorted epoch pid seed _ _ _ Hp Hs Hall Hord). }
  split; [assumption |]. split; [apply sorted_nodup; assumption |].
  intros Hclock.
  assert (Hrange : Forall (fun id => 0 <= id < 2 ^ 64) ids).
  { subst ids. unfold Main.calls.
    destruct (run_facts epoch pid seed _ n clock Hclock)
      as [-> | (Hp & Hs & Hall & _)]; [constructor |].
    apply Forall_forall. intros id Hin.
    apply in_map_iff in Hin. destruct Hin as (e & <- & He).
    rewrite Forall_forall in Hall.
    destruct (Hall e He) as (Hq & -> & _ & Ht).
    rewrite id_of_sum by assumption.
    unfold Main.sequence_ok in Hq.
    change (2 ^ 42) with 4398046511104 in Ht.
    change (2 ^ 64) with 18446744073709551616. lia. }
  split; [assumption |]. rewrite u64_small; assumption.
Qed.

Lemma calls_strictly_increasing_witness :
  Main.calls 4 (Main.pyflake_generator 1000 3 7) [1005; 1005; 1004; 1006; 1006]
  = [21901312; 21901313; 26095616; 26095617] /\
  StronglySorted Z.lt
    (map u64 (Main.calls 4 (Main.pyflake_generator 1000 3 7)
                         [1005; 1005; 1004; 1006; 1006])).
Proof.
  split; [vm_compute; reflexivity |].
  apply (calls_strictly_increasing 1000 3 7 4 [1005; 1005; 1004; 1006; 1006]).
  repeat constructor; simpl; lia.
Defined.

(** ** The state at each yield *)

Lemma entry_fields (epoch pid seed : Z) (P : Z -> Prop) (l : Main.locals)
    (e : Z * Main.locals) :
  0 <= pid <= 31 -> 0 <= seed <= 31 ->
  Main.entry_ok epoch pid seed P l e ->
  fst e = (Main.last_timestamp (snd e) - epoch) * 4194304 + seed * 131072
          + pid * 4096 + Main.sequence (snd e) /\
  Main.timestamp_field (fst e) = Main.last_timestamp (snd e) - epoch /\
  Main.seed_field (fst e) = seed /\ Main.pid_field (fst e) = pid /\
  Main.sequence_field (fst e) = Main.sequence (snd e) /\
  Main.to_timestamp epoch (fst e) "ms" = Main.Int (Main.last_timestamp (snd e)).
Proof.
  intros Hp Hs (Hq & Hid & _).
  rewrite Hid, id_of_sum by assumption.
  split; [reflexivity |].
  destruct (fields_of_sum (Main.last_timestamp (snd e) - epoch) seed pid
              (Main.sequence (snd e)) Hp Hs Hq) as (H1 & H2 & H3 & H4).
  repeat (split; [assumption |]).
  rewrite to_timestamp_sum by assumption. f_equal. lia.
Qed.

Lemma later_sorted_timestamps (h : list (Z * Main.locals)) :
  StronglySorted (fun a b => Main.later (snd a) (snd b)) h ->
  StronglySorted Z.le (map (fun e => Main.last_timestamp (snd e)) h).
Proof.
  induction 1 as [| a h _ IH Hall]; simpl; constructor; [assumption |].
  apply Forall_forall. intros t Hin.
  apply in_map_iff in Hin. destruct Hin as (b & <- & Hb).
  rewrite Forall_forall in Hall. specialize (Hall b Hb).
  unfold Main.later in Hall. lia.
Qed.

(** C10.  At every [yield] of a run the sequence kept is within
    [0 .. 2^12 - 1], [last_timestamp] is the timestamp packed into the
    identifier just yielded, which carries the generator's [pid] in bits
    12..16 and its [seed] in bits 17..21; and [last_timestamp] never
    decreases from one yield to the next. *)
Theorem yield_invariant (epoch pid seed : Z) (n : nat) (clock : list Z) :
  let h := Main.history n (Main.pyflake_generator epoch pid seed) clock in
  Forall (fun e =>
            0 <= Main.sequence (snd e) <= 2 ^ 12 - 1 /\
            Main.to_timestamp epoch (fst e) "ms"
            = Main.Int (Main.last_timestamp (snd e)) /\
            Main.timestamp_field (fst e) = Main.last_timestamp (snd e) - epoch /\
            Main.pid_field (fst e) = pid /\
            Main.seed_field (fst e) = seed /\
            Main.sequence_field (fst e) = Main.sequence (snd e)) h /\
  StronglySorted Z.le (map (fun e => Main.last_timestamp (snd e)) h).
Proof.
  intros h. subst h.
  destruct (run_facts epoch pid seed (fun _ => True) n clock)
    as [-> | (Hp & Hs & Hall & Hord)].
  - apply Forall_forall. auto.
  - split; constructor.
  - split; [| apply later_sorted_timestamps; assumption].
    eapply Forall_impl; [| exact Hall].
    intros e He.
    destruct (entry_fields epoch pid seed _ _ e Hp Hs He)
      as (_ & H1 & H2 & H3 & H4 & H5).
    destruct He as (Hq & _). unfold Main.sequence_ok in Hq.
    change (2 ^ 12 - 1) with 4095. auto 10.
Qed.

(** The identifiers of a run are strictly increasing, and each is the sum
    of its timestamp field, the seed, the pid and a sequence of twelve
    bits. *)
Lemma calls_sorted_fields (epoch pid seed : Z) (n : nat) (clock : list Z) :
  let ids := Main.calls n (Main.pyflake_generator epoch pid seed) clock in
  StronglySorted Z.lt ids /\
  Forall (fun id => exists q, 0 <= q <= 4095 /\
            Main.timestamp_field id * 4194304 + seed * 131072 + pid * 4096 + q
            = id) ids.
Proof.
  intros ids. subst ids. unfold Main.calls.
  destruct (run_facts epoch pid seed (fun _ => True) n clock)
    as [-> | (Hp & Hs & Hall & Hord)].
  - apply Forall_forall. auto.
  - split; constructor.
  - split; [apply (entries_sorted epoch pid seed _ _ _ Hp Hs Hall Hord) |].
    apply Forall_forall. intros id Hin.
    apply in_map_iff in Hin. destruct Hin as (e & <- & He).
    rewrite Forall_forall in Hall.
    destruct (entry_fields epoch pid seed _ _ e Hp Hs (Hall e He))
      as (Hsum & -> & _).
    exists (Main.sequence (snd e)). split; [apply (Hall e He) | ].
    symmetry. exact Hsum.
Qed.

(** ** A clock that moved backward *)

(** C4.  A reading behind [last_timestamp] makes the pass call [sleep]
    with [last_timestamp - now] and start over with the locals untouched;
    readings behind [last_timestamp] alone never yield; the identifier
    that the loop yields after them, and every identifier of a run, has a
    timestamp field no smaller than that of the identifier before it. *)
Theorem backward_clock_waits (epoch pid seed : Z) (l : Main.locals)
    (behind rest : list Z) :
  0 <= pid <= 31 -> 0 <= seed <= 31 -> Main.sequence_ok l ->
  Forall (fun now => now < Main.last_timestamp l) behind ->
  Forall (fun now =>
            Main.loop_body epoch pid seed l now
            = Main.Continue (Main.last_timestamp l - now) l) behind /\
  Main.loop epoch pid seed l behind =
    {| Main.slept := map (fun now => Main.last_timestamp l - now) behind;
       Main.value := None; Main.kept := l; Main.unread := [] |} /\
  (let r := Main.loop epoch pid seed l rest in
   Main.loop epoch pid seed l (behind ++ rest) =
     {| Main.slept := map (fun now => Main.last_timestamp l - now) behind
                      ++ Main.slept r;
        Main.value := Main.value r; Main.kept := Main.kept r;
        Main.unread := Main.unread r |}) /\
  (forall id, Main.value (Main.loop epoch pid seed l (behind ++ rest)) = Some id ->
     Main.timestamp_field (Main.id_of epoch pid seed l)
     <= Main.timestamp_field id) /\
  (forall n clock,
     StronglySorted Z.le
       (map Main.timestamp_field
            (Main.calls n (Main.pyflake_generator epoch pid seed) clock))).
Proof.
  intros Hp Hs Hq Hbehind.
  split.
  { eapply Forall_impl; [| exact Hbehind].
    intros now Hnow. apply loop_body_backward. assumption. }
  split.
  { pose proof (loop_behind epoch pid seed behind [] l Hbehind) as H.
    rewrite app_nil_r in H. cbn in H. rewrite app_nil_r in H. exact H. }
  split.
  { apply loop_behind. assumption. }
  split.
  { intros id Hv.
    destruct (loop_yield epoch pid seed _ l id Hq Hv) as (Hq' & Hl & ->).
    set (l' := Main.kept _) in *.
    rewrite !id_of_sum by assumption.
    destruct (fields_of_sum (Main.last_timestamp l - epoch) seed pid
                (Main.sequence l) Hp Hs Hq) as (-> & _).
    destruct (fields_of_sum (Main.last_timestamp l' - epoch) seed pid
                (Main.sequence l') Hp Hs Hq') as (-> & _).
    unfold Main.later in Hl. lia. }
  intros n clock. unfold Main.calls.
  destruct (run_facts epoch pid seed (fun _ => True) n clock)
    as [-> | (_ & _ & Hall & Hord)].
  - apply Forall_forall. auto.
  - constructor.
  - apply later_sorted_timestamps in Hord.
    assert (Heq : map Main.timestamp_field
                    (map fst (Main.history n
                                (Main.pyflake_generator epoch pid seed) clock))
                  = map (fun t => t - epoch)
                      (map (fun e => Main.last_timestamp (snd e))
                         (Main.history n
                            (Main.pyflake_generator epoch pid seed) clock))).
    { rewrite !map_map. apply map_ext_in. intros e He.
      rewrite Forall_forall in Hall.
      destruct (entry_fields epoch pid seed _ _ e Hp Hs (Hall e He))
        as (_ & H1 & _). assumption. }
    rewrite Heq. clear Heq Hall.
    induction Hord as [| t ts _ IH Hts]; simpl; constructor; [assumption |].
    rewrite Forall_forall in *. intros x Hx.
    apply in_map_iff in Hx. destruct Hx as (y & <- & Hy).
    specialize (Hts y Hy). lia.
Qed.

Lemma backward_clock_waits_witness :
  Main.loop 0 3 7 {| Main.last_timestamp := 100; Main.sequence := 3 |} [90; 95]
  = {| Main.slept := [10; 5]; Main.value := None;
       Main.kept := {| Main.last_timestamp := 100; Main.sequence := 3 |};
       Main.unread := [] |} /\
  Main.timestamp_field
    (Main.id_of 0 3 7 {| Main.last_timestamp := 100; Main.sequence := 3 |})
  <= Main.timestamp_field (Main.snowflake 0 3 7 100 4).
Proof.
  assert (Hp : 0 <= 3 <= 31) by lia.
  assert (Hs : 0 <= 7 <= 31) by lia.
  assert (Hq : Main.sequence_ok {| Main.last_timestamp := 100; Main.sequence := 3 |})
    by (unfold Main.sequence_ok; simpl; lia).
  assert (Hb : Forall (fun now => now < Main.last_timestamp
                                         {| Main.last_timestamp := 100;
                                            Main.sequence := 3 |}) [90; 95])
    by (repeat constructor).
  destruct (backward_clock_waits 0 3 7 _ [90; 95] [100; 101] Hp Hs Hq Hb)
    as (_ & Hloop & _ & Hnext & _).
  split; [exact Hloop |].
  apply Hnext. reflexivity.
Defined.

(** ** Sequence overflow *)

(** C5.  In the millisecond of the previous identifier, when the
    incremented sequence wraps to zero under the mask, the pass sets the
    sequence to [2^12 - 1], calls [sleep(1)] and starts over without
    yielding; and no run issues more than [2^12] identifiers with one and
    the same timestamp field. *)
Theorem sequence_overflow_waits (epoch pid seed : Z) (l : Main.locals) (t : Z) :
  Main.last_timestamp l = t ->
  Z.land (Main.sequence l + 1) Main.sequence_mask = 0 ->
  Main.loop_body epoch pid seed l t
  = Main.Continue 1 {| Main.last_timestamp := t; Main.sequence := 2 ^ 12 - 1 |} /\
  (forall n clock d,
     (List.length
        (filter (fun id => (Main.timestamp_field id =? d)%Z)
                (Main.calls n (Main.pyflake_generator epoch pid seed) clock))
      <= 4096)%nat).
Proof.
  intros Ht Hwrap. split.
  { rewrite loop_body_same by assumption. rewrite Hwrap. reflexivity. }
  intros n clock d.
  set (ids := Main.calls n (Main.pyflake_generator epoch pid seed) clock).
  destruct (calls_sorted_fields epoch pid seed n clock) as [Hsorted Hfields].
  fold ids in Hsorted, Hfields.
  set (base := d * 4194304 + seed * 131072 + pid * 4096).
  assert (Hlen : Z.of_nat (List.length
                   (filter (fun id => Main.timestamp_field id =? d) ids))
                 <= (base + 4096) - base).
  { apply sorted_interval_length; [lia | apply sorted_filter; assumption |].
    apply Forall_forall. intros id Hin. apply filter_In in Hin.
    destruct Hin as [Hin Hd]. apply Z.eqb_eq in Hd.
    rewrite Forall_forall in Hfields.
    destruct (Hfields id Hin) as (q & Hq & Hid).
    rewrite Hd in Hid. subst base. lia. }
  apply Nat2Z.inj_le. change (Z.of_nat 4096) with 4096. lia.
Qed.

Lemma sequence_overflow_waits_witness :
  Main.loop_body 0 3 7 {| Main.last_timestamp := 5; Main.sequence := 4095 |} 5
  = Main.Continue 1 {| Main.last_timestamp := 5; Main.sequence := 4095 |} /\
  List.length (Main.calls 4097 (Main.pyflake_generator 0 3 7) (repeat 5 4097))
  = 4096%nat.
Proof.
  split; [| vm_compute; reflexivity].
  apply (sequence_overflow_waits 0 3 7
           {| Main.last_timestamp := 5; Main.sequence := 4095 |} 5);
    reflexivity.
Defined.

(** ** The two scenarios *)

(** C3.  Every identifier of a run is the packing formula of the
    specification, at the widths 5, 5 and 12, of the locals kept at its
    yield; and with epoch 1600000000000, worker id 3 and seed 7 the first
    [generate()] at clock time 1600000005000 returns
    [(5000 << 22) | (7 << 17) | (3 << 12) | 0], which [to_timestamp] with
    the same epoch decodes to 1600000005000. *)
Theorem yield_is_packing (epoch pid seed : Z) (n : nat) (clock : list Z) :
  Forall (fun e =>
            fst e = Main.encode Main.pid_bits Main.seed_bits Main.sequence_bits
                      epoch (Main.last_timestamp (snd e)) pid seed
                      (Main.sequence (snd e)))
         (Main.history n (Main.pyflake_generator epoch pid seed) clock) /\
  (let id := Z.lor (Z.lor (Z.lor (Z.shiftl 5000 22) (Z.shiftl 7 17))
                          (Z.shiftl 3 12)) 0 in
   Main.generate (Main.new_client 1600000000000 3 7) [1600000005000]
   = (Main.Returned id, [],
      {| Main.client_epoch := 1600000000000;
         Main.client_generator :=
           Some (Main.Generator 1600000000000 3 7
                   (Main.Suspended {| Main.last_timestamp := 1600000005000;
                                      Main.sequence := 0 |})) |},
      []) /\
   Main.to_timestamp 1600000000000 id "ms" = Main.Int 1600000005000).
Proof.
  split.
  - destruct (run_facts epoch pid seed (fun _ => True) n clock)
      as [-> | (Hp & Hs & Hall & _)].
    + apply Forall_forall. auto.
    + constructor.
    + eapply Forall_impl; [| exact Hall].
      intros e (_ & He & _). exact He.
  - split; vm_compute; reflexivity.
Qed.

(** C6.  Two calls on a fresh generator that read the same millisecond [t]
    return identifiers with sequence fields 0 and 1 and the same timestamp
    field, the second being the first plus one. *)
Theorem same_millisecond_pair (epoch pid seed t : Z) :
  0 <= pid <= 31 -> 0 <= seed <= 31 -> 0 <= t ->
  exists id0 id1,
    Main.calls 2 (Main.pyflake_generator epoch pid seed) [t; t] = [id0; id1] /\
    Main.sequence_field id0 = 0 /\ Main.sequence_field id1 = 1 /\
    Main.timestamp_field id0 = Main.timestamp_field id1 /\
    id1 = id0 + 1.
Proof.
  intros Hp Hs Ht.
  exists (Main.snowflake epoch pid seed t 0), (Main.snowflake epoch pid seed t 1).
  split.
  { unfold Main.calls.
    destruct (history_fresh epoch pid seed 2 [t; t]) as [[_ Hbad] | [-> _]];
      [tauto |].
    cbn [Main.history]. unfold Main.next. cbn [Main.state].
    unfold Main.resume. cbn [Main.loop Main.epoch Main.pid Main.seed].
    rewrite loop_body_forward by (simpl; lia).
    cbn [Main.outcome_of Main.value Main.after Main.kept Main.suspend Main.state
         Main.clock_after Main.unread Main.epoch Main.pid Main.seed Main.loop].
    rewrite loop_body_same by reflexivity.
    cbn [Main.sequence].
    change (Z.land (0 + 1) Main.sequence_mask) with 1.
    cbn [Z.eqb Main.outcome_of Main.value Main.after Main.kept Main.suspend
         Main.state map fst]. reflexivity. }
  rewrite !snowflake_sum by lia.
  destruct (fields_of_sum (t - epoch) seed pid 0 Hp Hs ltac:(lia))
    as (Ht0 & _ & _ & Hq0).
  destruct (fields_of_sum (t - epoch) seed pid 1 Hp Hs ltac:(lia))
    as (Ht1 & _ & _ & Hq1).
  rewrite Ht0, Ht1, Hq0, Hq1. repeat split; lia.
Qed.

Lemma same_millisecond_pair_witness :
  exists id0 id1,
    Main.calls 2 (Main.pyflake_generator 1600000000000 3 7)
               [1600000005000; 1600000005000] = [id0; id1] /\
    Main.sequence_field id0 = 0 /\ Main.sequence_field id1 = 1 /\
    Main.timestamp_field id0 = Main.timestamp_field id1 /\
    id1 = id0 + 1.
Proof.
  apply (same_millisecond_pair 1600000000000 3 7 1600000005000); lia.
Defined.

(** A fresh generator whose first clock reading is the initial value [-1]
    of [last_timestamp] takes the same-millisecond branch: its first
    identifier has sequence 1. *)
Example first_reading_at_initial :
  map Main.sequence_field (Main.calls 2 (Main.pyflake_generator (-5) 3 7) [-1; -1])
  = [1; 2].
Proof. vm_compute. reflexivity. Qed.

(** ** Validation of the pid and the seed *)

(** The only exceptions of [next]: [AssertionError] from the first call
    on a generator whose pid or seed is out of range, and [StopIteration]
    from a generator that has finished. *)
Lemma next_raises (g : Main.generator) (clock : list Z) (e : exn) :
  Main.outcome_of (Main.next g clock) = Main.Raised e ->
  (e = AssertionError /\ Main.state g = Main.Unstarted /\
   ~ (0 <= Main.pid g <= 31 /\ 0 <= Main.seed g <= 31)) \/
  (e = StopIteration /\ Main.state g = Main.Finished).
Proof.
  unfold Main.next, Main.resume. destruct (Main.state g) as [| l |] eqn:Hstate.
  - destruct ((Main.pid g >=? 0) && (Main.pid g <=? Main.max_pid)) eqn:Ha;
      cbn [negb].
    + destruct ((Main.seed g >=? 0) && (Main.seed g <=? Main.max_seed)) eqn:Hb;
        cbn [negb Main.outcome_of].
      * destruct (Main.value _); discriminate.
      * intros [= <-]. left. repeat split.
        intros Hok. apply asserts_spec in Hok. destruct Hok. congruence.
    + cbn [Main.outcome_of]. intros [= <-]. left. repeat split.
      intros Hok. apply asserts_spec in Hok. destruct Hok. congruence.
  - cbn [Main.outcome_of]. destruct (Main.value _); discriminate.
  - cbn [Main.outcome_of]. intros [= <-]. right. auto.
Qed.

(** C7.  What the code does with a pid one past the maximum: the call of
    [pyflake_generator], and so the constructor of [PyflakeClient], returns
    a generator that has not started; the [assert] fails in the first
    [next], whatever the clock.  With pid 31 the first [next] returns. *)
Theorem validation_runs_at_first_next :
  Main.state (Main.pyflake_generator 0 32 0) = Main.Unstarted /\
  Main.client_generator (Main.new_client 0 32 0)
  = Some (Main.pyflake_generator 0 32 0) /\
  (forall clock,
     Main.outcome_of (Main.next (Main.pyflake_generator 0 32 0) clock)
     = Main.Raised AssertionError) /\
  Main.outcome_of (Main.next (Main.pyflake_generator 0 31 0) [5])
  = Main.Returned (Main.snowflake 0 31 0 5 0) /\
  (forall clock,
     Main.outcome_of (Main.next (Main.pyflake_generator 0 0 32) clock)
     = Main.Raised AssertionError).
Proof.
  repeat split; intros; reflexivity.
Qed.

(** ** The seed helper *)

(** C9.  What the code does: the upper bound of the range drawn from is
    [2 xor (bits - 1)].  For [bits = 5] the results are exactly 1..6, not
    1..31; for [bits = 3] the range is empty and the call raises; for
    [bits = 1] the result can be 2, above [2^1 - 1]. *)
Theorem generate_seed_upper_bound :
  (forall rnd, exists r, Main.generate_seed 5 rnd = Return r /\ 1 <= r <= 6) /\
  Main.generate_seed 5 5 = Return 6 /\
  (forall rnd, Main.generate_seed 3 rnd = Raise ValueError) /\
  Main.generate_seed 1 1 = Return 2 /\
  (forall bits rnd, SrcMain.generate_seed bits rnd = Main.generate_seed bits rnd).
Proof.
  split.
  { intros rnd. exists (1 + rnd mod 6). split; [reflexivity |].
    pose proof (Z.mod_pos_bound rnd 6 ltac:(lia)). lia. }
  repeat split; intros; reflexivity.
Qed.

(** ** The reworked client *)

Lemma snowflake_raises (self : SrcMain.Pyflake) :
  SrcMain.snowflake self = Raise TypeError.
Proof. reflexivity. Qed.

(** C8.  What the code of [src/main.py] does: [snowflake] raises
    [TypeError] on every record, so [generate] never returns one;
    [create_generator] raises [TypeError] and leaves the client without a
    generator, from which [generate] raises [AttributeError]; with a
    generator attached by hand, [next] yields the record of the four fields
    and [generate] raises [TypeError]; and the shift counts of a record are
    the bit lengths of its own fields (5 where the fixed layout has 22). *)
Theorem generate_never_returns :
  (forall self, SrcMain.snowflake self = Raise TypeError) /\
  (forall self clock res,
     fst (fst (SrcMain.generate self clock)) <> SrcMain.Returned res) /\
  (forall epoch pid seed,
     fst (SrcMain.create_generator (SrcMain.new_client epoch) pid seed)
     = Raise TypeError /\
     SrcMain.client_generator
       (snd (SrcMain.create_generator (SrcMain.new_client epoch) pid seed))
     = None) /\
  (forall epoch clock,
     fst (fst (SrcMain.generate (SrcMain.new_client epoch) clock))
     = SrcMain.Raised AttributeError) /\
  (let res :=
     {| SrcMain.epoch := 1600000000000; SrcMain.timestamp := 1600000005000;
        SrcMain.pid := 3; SrcMain.seed := 7; SrcMain.sequence := 0 |} in
   let g :=
     {| SrcMain.g_epoch := 1600000000000; SrcMain.g_pid := 3;
        SrcMain.g_seed := 7; SrcMain.g_sequence_bits := 12;
        SrcMain.g_sleep := fun _ => Return tt;
        SrcMain.state := SrcMain.Unstarted |} in
   let self :=
     {| SrcMain.client_epoch := 1600000000000; SrcMain._generated := 0;
        SrcMain._cache := []; SrcMain.client_pid := Some 3;
        SrcMain.client_seed := Some 7; SrcMain.client_generator := Some g |} in
   SrcMain.pyflake_generator 1600000000000 3 7 (Some 12)
     (Some (fun _ => Return tt)) = Return g /\
   SrcMain.outcome_of (SrcMain.next g [1600000005000]) = SrcMain.Returned res /\
   fst (fst (SrcMain.generate self [1600000005000])) = SrcMain.Raised TypeError /\
   SrcMain.timestamp_shift res = 5).
Proof.
  split; [exact snowflake_raises |].
  split.
  { intros self clock res. unfold SrcMain.generate.
    destruct (SrcMain.client_generator self) as [g |]; [| discriminate].
    destruct (SrcMain.outcome_of (SrcMain.next g clock)) as [p | e |];
      discriminate. }
  repeat split; intros; reflexivity.
Qed.

(** * Further properties of main.py *)

(** ** Decoding and the order of identifiers *)

(** X1.  Identifiers sort by time: of two identifiers decoded with one
    epoch, the one with the earlier timestamp is the smaller integer,
    whatever its pid, seed and sequence bits are. *)
Theorem decoded_order (epoch id1 id2 t1 t2 : Z) :
  Main.to_timestamp epoch id1 "ms" = Main.Int t1 ->
  Main.to_timestamp epoch id2 "ms" = Main.Int t2 ->
  t1 < t2 -> id1 < id2.
Proof.
  unfold Main.to_timestamp. cbn [String.eqb Ascii.eqb Bool.eqb].
  intros [= <-] [= <-] Hlt.
  rewrite !Z.shiftr_div_pow2 in Hlt by lia.
  destruct (Z.lt_ge_cases id1 id2) as [H | H]; [assumption | exfalso].
  pose proof (Z.div_le_mono id2 id1 (2 ^ 22) ltac:(lia) H). lia.
Qed.

Lemma decoded_order_witness : 21901313 < 26095616.
Proof.
  apply (decoded_order 1000 21901313 26095616 1005 1006);
    [reflexivity | reflexivity | lia].
Defined.

(** ** Clock reads and sleeps *)

Lemma loop_body_sleep (epoch pid seed : Z) (l l' : Main.locals) (t ms : Z) :
  Main.loop_body epoch pid seed l t = Main.Continue ms l' -> 1 <= ms.
Proof.
  unfold Main.loop_body.
  destruct (Z.gtb_spec (Main.last_timestamp l) t) as [Hgt | Hle].
  - intros [= <- _]. lia.
  - destruct (Main.last_timestamp l =? t); [| discriminate].
    destruct (Z.land (Main.sequence l + 1) Main.sequence_mask =? 0);
      [| discriminate].
    intros [= <- _]. lia.
Qed.

(** X2.  From any locals and on any clock, every pass of the loop reads
    the clock once and every pass that does not yield sleeps once, for at
    least one millisecond: the readings used are one per sleep, plus the one
    of the yield when there is one. *)
Theorem loop_accounting (epoch pid seed : Z) (clock : list Z) :
  forall l : Main.locals,
  let r := Main.loop epoch pid seed l clock in
  Forall (fun ms => 1 <= ms) (Main.slept r) /\
  exists used,
    clock = used ++ Main.unread r /\
    List.length used
    = (List.length (Main.slept r)
       + match Main.value r with Some _ => 1 | None => 0 end)%nat.
Proof.
  induction clock as [| t clock IH]; intros l; cbn [Main.loop].
  - split; [constructor |]. exists []. split; reflexivity.
  - destruct (Main.loop_body epoch pid seed l t) as [ms l1 | id1 l1] eqn:Hb.
    + destruct (IH l1) as (Hpos & used & Hclock & Hlen).
      cbn [Main.slept Main.unread Main.value]. split.
      * constructor; [eapply loop_body_sleep; eassumption | assumption].
      * exists (t :: used). split.
        -- cbn [app]. f_equal. assumption.
        -- cbn [List.length]. rewrite Hlen. reflexivity.
    + cbn [Main.slept Main.unread Main.value]. split; [constructor |].
      exists [t]. split; reflexivity.
Qed.

(** ** Progress *)

(** X3.  A call returns once the clock shows a millisecond after
    [last_timestamp]: the resumed generator on any clock with such a
    reading, and the fresh generator on any clock with a reading that is
    not negative. *)
Theorem call_returns (epoch pid seed : Z) (l : Main.locals) (clock : list Z) :
  0 <= pid <= 31 -> 0 <= seed <= 31 -> Main.sequence_ok l ->
  Exists (fun now => Main.last_timestamp l < now) clock ->
  (exists id,
     Main.outcome_of
       (Main.next (Main.Generator epoch pid seed (Main.Suspended l)) clock)
     = Main.Returned id) /\
  (Exists (fun now => 0 <= now) clock ->
   exists id,
     Main.outcome_of (Main.next (Main.pyflake_generator epoch pid seed) clock)
     = Main.Returned id).
Proof.
  intros Hp Hs Hq Hex. split.
  - destruct (loop_progress epoch pid seed clock l Hex Hq) as [id Hid].
    exists id. unfold Main.next, Main.resume.
    cbn [Main.state Main.outcome_of Main.epoch Main.pid Main.seed].
    rewrite Hid. reflexivity.
  - intros Hex0.
    assert (Hq0 : Main.sequence_ok Main.initial)
      by (unfold Main.sequence_ok; simpl; lia).
    assert (Hex1 : Exists (fun now => Main.last_timestamp Main.initial < now) clock).
    { apply Exists_exists in Hex0. destruct Hex0 as (t & Hin & Ht).
      apply Exists_exists. exists t. split; [assumption | simpl; lia]. }
    destruct (loop_progress epoch pid seed clock _ Hex1 Hq0) as [id Hid].
    exists id. rewrite next_fresh_valid by assumption.
    unfold Main.next, Main.resume.
    cbn [Main.state Main.outcome_of Main.epoch Main.pid Main.seed].
    rewrite Hid. reflexivity.
Qed.

Lemma call_returns_witness :
  exists id,
    Main.outcome_of
      (Main.next (Main.Generator 0 3 7
                    (Main.Suspended {| Main.last_timestamp := 100;
                                       Main.sequence := 4095 |}))
                 [90; 100; 100; 101])
    = Main.Returned id.
Proof.
  apply (call_returns 0 3 7 {| Main.last_timestamp := 100; Main.sequence := 4095 |}
           [90; 100; 100; 101]).
  - lia.
  - lia.
  - unfold Main.sequence_ok; simpl; lia.
  - do 3 apply Exists_cons_tl. apply Exists_cons_hd. simpl. lia.
Defined.

(** ** Identifiers of different generators *)

(** The pid and seed fields of every identifier of a run. *)
Lemma yield_fields (epoch pid seed : Z) (n : nat) (clock : list Z) :
  Forall (fun e => Main.pid_field (fst e) = pid /\ Main.seed_field (fst e) = seed)
         (Main.history n (Main.pyflake_generator epoch pid seed) clock).
Proof.
  destruct (run_facts epoch pid seed (fun _ => True) n clock)
    as [-> | (Hp & Hs & Hall & _)].
  - apply Forall_forall. auto.
  - constructor.
  - eapply Forall_impl; [| exact Hall].
    intros e He.
    destruct (entry_fields epoch pid seed _ _ e Hp Hs He)
      as (_ & _ & H2 & H3 & _). auto.
Qed.


Lemma calls_fields (epoch pid seed : Z) (n : nat) (clock : list Z) (id : Z) :
  In id (Main.calls n (Main.pyflake_generator epoch pid seed) clock) ->
  Main.pid_field id = pid /\ Main.seed_field id = seed.
Proof.
  intros Hin. unfold Main.calls in Hin.
  apply in_map_iff in Hin. destruct Hin as (e & <- & He).
  pose proof (yield_fields epoch pid seed n clock) as Hall.
  rewrite Forall_forall in Hall. apply (Hall e He).
Qed.

(** X4.  Two generators that differ in their pid or in their seed never
    return the same identifier, whatever their epochs, their clocks and the
    number of calls made on each. *)
Theorem generators_disjoint (epoch1 pid1 seed1 epoch2 pid2 seed2 : Z)
    (n1 n2 : nat) (clock1 clock2 : list Z) (id : Z) :
  pid1 <> pid2 \/ seed1 <> seed2 ->
  In id (Main.calls n1 (Main.pyflake_generator epoch1 pid1 seed1) clock1) ->
  ~ In id (Main.calls n2 (Main.pyflake_generator epoch2 pid2 seed2) clock2).
Proof.
  intros Hdiff H1 H2.
  apply calls_fields in H1. apply calls_fields in H2.
  destruct H1 as [Hp1 Hs1]. destruct H2 as [Hp2 Hs2].
  rewrite Hp1 in Hp2. rewrite Hs1 in Hs2. tauto.
Qed.

Lemma generators_disjoint_witness :
  ~ In 21901312 (Main.calls 2 (Main.pyflake_generator 1000 4 7) [1005; 1005]).
Proof.
  apply (generators_disjoint 1000 3 7 1000 4 7 1 2 [1005] [1005; 1005]).
  - left. lia.
  - vm_compute. left. reflexivity.
Defined.

(** ** The sign and the size of an identifier *)

(** X5.  An identifier is negative exactly when the clock reading it was
    made from is before the epoch, and it fits 64 unsigned bits exactly
    when that reading is at least the epoch and less than [2^42]
    milliseconds after it. *)
Theorem identifier_range (epoch pid seed : Z) (n : nat) (clock : list Z) :
  Forall (fun e =>
            (fst e < 0 <-> Main.last_timestamp (snd e) < epoch) /\
            (0 <= fst e < 2 ^ 64
             <-> epoch <= Main.last_timestamp (snd e) < epoch + 2 ^ 42))
         (Main.history n (Main.pyflake_generator epoch pid seed) clock).
Proof.
  destruct (run_facts epoch pid seed (fun _ => True) n clock)
    as [-> | (Hp & Hs & Hall & _)].
  - apply Forall_forall. auto.
  - constructor.
  - eapply Forall_impl; [| exact Hall].
    intros e He.
    destruct (entry_fields epoch pid seed _ _ e Hp Hs He) as (Hsum & _).
    destruct He as (Hq & _). unfold Main.sequence_ok in Hq.
    rewrite Hsum.
    change (2 ^ 64) with 18446744073709551616.
    change (2 ^ 42) with 4398046511104.
    split; split; intros; lia.
Qed.

(** ** A clock that stands still *)

Lemma loop_stuck_full (epoch pid seed t : Z) (m : nat) :
  Main.value (Main.loop epoch pid seed
                {| Main.last_timestamp := t; Main.sequence := 4095 |}
                (repeat t m)) = None.
Proof.
  induction m as [| m IH]; [reflexivity |].
  cbn [repeat Main.loop]. rewrite loop_body_same by reflexivity.
  cbn [Main.sequence].
  change (Z.land (4095 + 1) Main.sequence_mask =? 0) with true.
  cbn [Main.value]. exact IH.
Qed.

Lemma history_stuck (epoch pid seed t : Z) (n : nat) : forall (q : Z) (m : nat),
  0 <= q <= 4095 ->
  List.length
    (Main.history n
       (Main.Generator epoch pid seed
          (Main.Suspended {| Main.last_timestamp := t; Main.sequence := q |}))
       (repeat t m))
  = Nat.min (Nat.min n m) (Z.to_nat (4095 - q)).
Proof.
  induction n as [| n IH]; intros q m Hq; [reflexivity |].
  destruct m as [| m].
  { cbn [Main.history repeat]. unfold Main.next, Main.resume.
    cbn [Main.state Main.loop Main.value Main.outcome_of List.length]. lia. }
  cbn [Main.history repeat]. unfold Main.next. cbn [Main.state].
  unfold Main.resume. cbn [Main.loop Main.epoch Main.pid Main.seed].
  rewrite loop_body_same by reflexivity. cbn [Main.sequence].
  rewrite increment_masked by assumption.
  destruct (Z.eqb_spec q 4095) as [-> | Hne].
  - cbn [Z.eqb Main.value Main.outcome_of]. rewrite loop_stuck_full.
    cbn [List.length]. lia.
  - destruct (Z.eqb_spec (q + 1) 0) as [H0 | _]; [lia |].
    cbn [Main.outcome_of Main.value Main.after Main.kept Main.suspend Main.state
         Main.clock_after Main.unread Main.epoch Main.pid Main.seed List.length].
    unfold Main.suspend. cbn [Main.epoch Main.pid Main.seed].
    rewrite IH by lia. lia.
Qed.

(** X6.  On a clock that stands at the millisecond [t], a fresh generator
    returns to the first [2^12] calls and to no call after them: [n] calls
    on [m] readings of [t] return [min n m 4096] identifiers. *)
Theorem stuck_clock_count (epoch pid seed t : Z) (n m : nat) :
  0 <= pid <= 31 -> 0 <= seed <= 31 -> 0 <= t ->
  List.length (Main.calls n (Main.pyflake_generator epoch pid seed) (repeat t m))
  = Nat.min (Nat.min n m) 4096.
Proof.
  intros Hp Hs Ht. unfold Main.calls. rewrite length_map.
  destruct (history_fresh epoch pid seed n (repeat t m)) as [[_ Hbad] | [-> _]];
    [tauto |].
  destruct n as [| n]; [reflexivity |].
  destruct m as [| m].
  { cbn [Main.history repeat]. unfold Main.next, Main.resume.
    cbn [Main.state Main.loop Main.value Main.outcome_of List.length]. lia. }
  cbn [Main.history repeat]. unfold Main.next. cbn [Main.state].
  unfold Main.resume. cbn [Main.loop Main.epoch Main.pid Main.seed].
  rewrite loop_body_forward by (simpl; lia).
  cbn [Main.outcome_of Main.value Main.after Main.kept Main.suspend Main.state
       Main.clock_after Main.unread Main.epoch Main.pid Main.seed List.length].
  unfold Main.suspend. cbn [Main.epoch Main.pid Main.seed].
  rewrite history_stuck by lia. lia.
Qed.

Lemma stuck_clock_count_witness :
  List.length (Main.calls 5000 (Main.pyflake_generator 1000 3 7) (repeat 1005 5000))
  = 4096%nat.
Proof.
  rewrite (stuck_clock_count 1000 3 7 1005 5000 5000); [reflexivity | lia | lia | lia].
Defined.

(** ** The client *)

Lemma loop_kept_ok (epoch pid seed : Z) (clock : list Z) : forall l : Main.locals,
  Main.sequence_ok l ->
  Main.sequence_ok (Main.kept (Main.loop epoch pid seed l clock)).
Proof.
  induction clock as [| t clock IH]; intros l Hq; cbn [Main.loop Main.kept];
    [assumption |].
  destruct (Main.loop_body epoch pid seed l t) as [ms l1 | id1 l1] eqn:Hb;
    cbn [Main.kept].
  - apply loop_body_continue in Hb; [| assumption].
    destruct Hb as [-> _]. apply IH. assumption.
  - apply loop_body_yield in Hb; [| assumption]. tauto.
Qed.

Lemma loop_last_reading (epoch pid seed : Z) (clock : list Z) :
  forall (l : Main.locals) (id : Z),
  Main.value (Main.loop epoch pid seed l clock) = Some id ->
  exists used,
    clock = used
            ++ Main.last_timestamp (Main.kept (Main.loop epoch pid seed l clock))
            :: Main.unread (Main.loop epoch pid seed l clock).
Proof.
  induction clock as [| t clock IH]; intros l id Hv; cbn [Main.loop] in *.
  - discriminate Hv.
  - destruct (Main.loop_body epoch pid seed l t) as [ms l1 | id1 l1] eqn:Hb;
      cbn [Main.value Main.kept Main.unread] in *.
    + destruct (IH l1 id Hv) as [used Hused].
      exists (t :: used). cbn [app]. f_equal. exact Hused.
    + exists []. cbn [app]. f_equal.
      unfold Main.loop_body in Hb.
      destruct (Main.last_timestamp l >? t); [discriminate Hb |].
      destruct (Main.last_timestamp l =? t).
      * destruct (Z.land (Main.sequence l + 1) Main.sequence_mask =? 0);
          [discriminate Hb |].
        injection Hb as _ <-. reflexivity.
      * injection Hb as _ <-. reflexivity.
Qed.

(** One [next] on a generator in order: the generator stays in order and
    keeps its epoch; an identifier returned decodes, with that epoch, to the
    last clock reading the call used. *)
Lemma next_ok (g : Main.generator) (clock : list Z) :
  Main.generator_ok g ->
  Main.generator_ok (Main.after (Main.next g clock)) /\
  Main.epoch (Main.after (Main.next g clock)) = Main.epoch g /\
  (forall id,
     Main.outcome_of (Main.next g clock) = Main.Returned id ->
     exists used t,
       clock = used ++ t :: Main.clock_after (Main.next g clock) /\
       Main.to_timestamp (Main.epoch g) id "ms" = Main.Int t).
Proof.
  intros Hok.
  assert (Hresume : forall l,
            Main.sequence_ok l ->
            0 <= Main.pid g <= 31 -> 0 <= Main.seed g <= 31 ->
            Main.generator_ok (Main.after (Main.resume g l clock)) /\
            Main.epoch (Main.after (Main.resume g l clock)) = Main.epoch g /\
            (forall id,
               Main.outcome_of (Main.resume g l clock) = Main.Returned id ->
               exists used t,
                 clock = used ++ t :: Main.clock_after (Main.resume g l clock) /\
                 Main.to_timestamp (Main.epoch g) id "ms" = Main.Int t)).
  { intros l Hq Hp Hs. unfold Main.resume.
    cbn [Main.after Main.outcome_of Main.clock_after].
    pose proof (loop_kept_ok (Main.epoch g) (Main.pid g) (Main.seed g) clock l Hq)
      as Hkept.
    split; [| split; [reflexivity |]].
    - unfold Main.generator_ok, Main.suspend.
      cbn [Main.state Main.pid Main.seed]. auto.
    - intros id Hout.
      destruct (Main.value (Main.loop (Main.epoch g) (Main.pid g) (Main.seed g)
                              l clock)) as [id' |] eqn:Hv; [| discriminate Hout].
      injection Hout as ->.
      destruct (loop_last_reading _ _ _ clock l id Hv) as [used Hused].
      destruct (loop_yield _ _ _ clock l id Hq Hv) as (_ & _ & Hid).
      exists used. eexists. split; [exact Hused |].
      rewrite Hid, id_of_sum by assumption.
      rewrite to_timestamp_sum by assumption. f_equal. lia. }
  unfold Main.next. unfold Main.generator_ok in Hok.
  destruct (Main.state g) as [| l |] eqn:Hstate.
  - destruct ((Main.pid g >=? 0) && (Main.pid g <=? Main.max_pid)) eqn:Ha;
      cbn [negb].
    + destruct ((Main.seed g >=? 0) && (Main.seed g <=? Main.max_seed)) eqn:Hb;
        cbn [negb].
      * destruct (proj1 (asserts_spec (Main.pid g) (Main.seed g)) (conj Ha Hb))
          as [Hp Hs].
        apply Hresume; [unfold Main.sequence_ok; simpl; lia | assumption ..].
      * cbn [Main.after Main.outcome_of]. unfold Main.generator_ok.
        cbn [Main.finish Main.state Main.epoch].
        repeat split. intros id [=].
    + cbn [Main.after Main.outcome_of]. unfold Main.generator_ok.
      cbn [Main.finish Main.state Main.epoch].
      repeat split. intros id [=].
  - destruct Hok as (Hq & Hp & Hs). apply Hresume; assumption.
  - cbn [Main.after Main.outcome_of]. unfold Main.generator_ok.
    rewrite Hstate. repeat split. intros id [=].
Qed.

Lemma serve_ok (c : Main.PyflakeClient) (r : Main.request) :
  Main.client_ok c ->
  Main.client_ok (Main.serve c r) /\
  Main.client_epoch (Main.serve c r) = Main.client_epoch c.
Proof.
  intros Hok. unfold Main.client_ok in *.
  destruct r as [| pid seed | pid seed | clock]; cbn [Main.serve].
  - split; [exact I | reflexivity].
  - unfold Main.create. destruct (Main.client_generator c) as [g |] eqn:Hg.
    + rewrite Hg. auto.
    + cbn [Main.client_generator Main.client_epoch]. repeat split.
  - unfold Main.renew, Main.create, Main.destroy.
    cbn [Main.client_generator Main.client_epoch]. repeat split.
  - unfold Main.generate. destruct (Main.client_generator c) as [g |] eqn:Hg.
    + cbn [fst snd Main.client_generator Main.client_epoch].
      destruct Hok as [He Hgok].
      destruct (next_ok g clock Hgok) as (Hok' & He' & _).
      split; [split; [congruence | assumption] | reflexivity].
    + cbn [fst snd]. rewrite Hg. auto.
Qed.

Lemma session_ok (rs : list Main.request) : forall c : Main.PyflakeClient,
  Main.client_ok c ->
  Main.client_ok (Main.session c rs) /\
  Main.client_epoch (Main.session c rs) = Main.client_epoch c.
Proof.
  induction rs as [| r rs IH]; intros c Hok; cbn [Main.session fold_left];
    [auto |].
  destruct (serve_ok c r Hok) as [Hok' He].
  destruct (IH _ Hok') as [Hok'' He'].
  unfold Main.session in *. split; [assumption | congruence].
Qed.

(** X7.  Round trip through the client: after any sequence of [destroy],
    [create], [renew] and [generate] calls on a client, an identifier that
    [generate] returns decodes, by the client's [to_timestamp], to the last
    clock reading that the call used. *)
Theorem client_roundtrip (epoch pid seed : Z) (rs : list Main.request)
    (clock : list Z) (id : Z) (sl : list Z) (c' : Main.PyflakeClient)
    (rest : list Z) :
  Main.generate (Main.session (Main.new_client epoch pid seed) rs) clock
  = (Main.Returned id, sl, c', rest) ->
  exists used t,
    clock = used ++ t :: rest /\
    Main.client_to_timestamp c' id "ms" = Main.Int t.
Proof.
  intros Hgen.
  assert (Hnew : Main.client_ok (Main.new_client epoch pid seed)).
  { unfold Main.client_ok, Main.generator_ok. cbn. auto. }
  destruct (session_ok rs _ Hnew) as [Hok _].
  set (c := Main.session (Main.new_client epoch pid seed) rs) in *.
  unfold Main.generate in Hgen. unfold Main.client_ok in Hok.
  destruct (Main.client_generator c) as [g |]; [| discriminate Hgen].
  destruct Hok as [He Hgok].
  injection Hgen as Hout _ <- <-.
  destruct (next_ok g clock Hgok) as (_ & _ & Hret).
  destruct (Hret id Hout) as (used & t & Hclock & Hts).
  exists used, t. split; [assumption |].
  unfold Main.client_to_timestamp. cbn [Main.client_epoch].
  rewrite <- He. assumption.
Qed.

Lemma client_roundtrip_witness :
  exists used t,
    [1004; 1005; 1009] = used ++ t :: [1009] /\
    Main.client_to_timestamp
      {| Main.client_epoch := 1000;
         Main.client_generator :=
           Some (Main.Generator 1000 3 7
                   (Main.Suspended {| Main.last_timestamp := 1005;
                                      Main.sequence := 1 |})) |}
      21901313 "ms" = Main.Int t.
Proof.
  apply (client_roundtrip 1000 3 7
           [Main.Renew 3 7; Main.Generate [1005]; Main.Create 5 5]
           [1004; 1005; 1009] 21901313 [1]).
  vm_compute. reflexivity.
Defined.

(** X8.  Uniqueness does not survive [renew]: a client renewed with the
    pid and seed it had, in the millisecond of its last identifier, returns
    that identifier a second time. *)
Theorem renew_repeats_identifier (epoch pid seed t : Z) :
  0 <= pid <= 31 -> 0 <= seed <= 31 -> 0 <= t ->
  exists c1 c2,
    Main.generate (Main.new_client epoch pid seed) [t]
    = (Main.Returned (Main.snowflake epoch pid seed t 0), [], c1, []) /\
    Main.generate (Main.renew c1 pid seed) [t]
    = (Main.Returned (Main.snowflake epoch pid seed t 0), [], c2, []).
Proof.
  intros Hp Hs Ht.
  assert (Hfirst : Main.next (Main.pyflake_generator epoch pid seed) [t]
                   = {| Main.outcome_of :=
                          Main.Returned (Main.snowflake epoch pid seed t 0);
                        Main.sleeps := [];
                        Main.after :=
                          Main.Generator epoch pid seed
                            (Main.Suspended {| Main.last_timestamp := t;
                                               Main.sequence := 0 |});
                        Main.clock_after := [] |}).
  { rewrite next_fresh_valid by assumption.
    unfold Main.next, Main.resume.
    cbn [Main.state Main.loop Main.epoch Main.pid Main.seed].
    rewrite loop_body_forward by (simpl; lia). reflexivity. }
  eexists. eexists. split.
  - unfold Main.generate, Main.new_client. cbn [Main.client_generator].
    rewrite Hfirst. reflexivity.
  - unfold Main.generate, Main.renew, Main.create, Main.destroy.
    cbn [Main.client_generator Main.client_epoch].
    rewrite Hfirst. reflexivity.
Qed.

Lemma renew_repeats_identifier_witness :
  exists c1 c2,
    Main.generate (Main.new_client 1000 3 7) [1005]
    = (Main.Returned (Main.snowflake 1000 3 7 1005 0), [], c1, []) /\
    Main.generate (Main.renew c1 3 7) [1005]
    = (Main.Returned (Main.snowflake 1000 3 7 1005 0), [], c2, []).
Proof.
  apply (renew_repeats_identifier 1000 3 7 1005); lia.
Defined.

(** X9.  A generator whose pid or seed is out of range is finished by its
    first call: that [generate] raises [AssertionError], and after any
    further [generate] calls the client is unchanged and [generate] raises
    [StopIteration], with no clock reading used and no sleep. *)
Theorem rejected_generator_is_finished (epoch pid seed : Z)
    (clock clock' : list Z) (clocks : list (list Z)) :
  ~ (0 <= pid <= 31 /\ 0 <= seed <= 31) ->
  let dead :=
    {| Main.client_epoch := epoch;
       Main.client_generator :=
         Some (Main.finish (Main.pyflake_generator epoch pid seed)) |} in
  Main.generate (Main.new_client epoch pid seed) clock
  = (Main.Raised AssertionError, [], dead, clock) /\
  Main.session (Main.new_client epoch pid seed)
               (map Main.Generate (clock :: clocks)) = dead /\
  Main.generate dead clock' = (Main.Raised StopIteration, [], dead, clock').
Proof.
  intros Hbad dead.
  assert (Hfirst : Main.generate (Main.new_client epoch pid seed) clock
                   = (Main.Raised AssertionError, [], dead, clock)).
  { unfold Main.generate, Main.new_client. cbn [Main.client_generator].
    rewrite next_fresh_invalid by assumption. reflexivity. }
  split; [assumption |]. split; [| reflexivity].
  cbn [map Main.session fold_left Main.serve]. rewrite Hfirst. cbn [fst snd].
  induction clocks as [| k clocks IH]; [reflexivity |].
  cbn [map fold_left Main.serve]. exact IH.
Qed.

Lemma rejected_generator_is_finished_witness :
  Main.generate
    {| Main.client_epoch := 1000;
       Main.client_generator :=
         Some (Main.finish (Main.pyflake_generator 1000 32 7)) |} [1006]
  = (Main.Raised StopIteration, [],
     {| Main.client_epoch := 1000;
        Main.client_generator :=
          Some (Main.finish (Main.pyflake_generator 1000 32 7)) |}, [1006]).
Proof.
  apply (rejected_generator_is_finished 1000 32 7 [1005] [1006] [[1005]]).
  lia.
Defined.

(** ** The seed helper, for every number of bits *)

Lemma lxor_2_small (x : Z) : Z.lxor 2 x < 1 <-> x = 2 \/ x < 0.
Proof.
  pose proof (Z.lxor_nonneg 2 x) as Hsign.
  split.
  - intros Hlt. destruct (Z.lt_ge_cases x 0) as [Hneg | Hpos]; [auto |].
    left. assert (H0 : Z.lxor 2 x = 0) by lia.
    apply Z.lxor_eq in H0. lia.
  - intros [-> | Hneg]; [reflexivity | lia].
Qed.

(** X10.  [generate_seed(bits)] raises [ValueError] exactly when [bits] is
    3 or is not positive; otherwise it returns a value between 1 and
    [2 xor (bits - 1)], and every value of that range is returned for some
    draw. *)
Theorem generate_seed_spec (bits rnd : Z) :
  (Main.generate_seed bits rnd = Raise ValueError <-> bits = 3 \/ bits <= 0) /\
  (forall r, Main.generate_seed bits rnd = Return r ->
             1 <= r <= Z.lxor 2 (bits - 1)) /\
  (forall r, 1 <= r <= Z.lxor 2 (bits - 1) ->
             exists rnd', Main.generate_seed bits rnd' = Return r).
Proof.
  unfold Main.generate_seed, randint.
  pose proof (lxor_2_small (bits - 1)) as Hsmall.
  split; [| split].
  - destruct (Z.ltb_spec (Z.lxor 2 (bits - 1)) 1) as [Hlt | Hge].
    + split; [intros _ | reflexivity]. apply Hsmall in Hlt. lia.
    + split; [discriminate |]. intros Hbits.
      assert (Z.lxor 2 (bits - 1) < 1) by (apply Hsmall; lia). lia.
  - intros r. destruct (Z.ltb_spec (Z.lxor 2 (bits - 1)) 1) as [Hlt | Hge];
      [discriminate |].
    intros Heq.
    assert (Hr : r = 1 + rnd mod (Z.lxor 2 (bits - 1) - 1 + 1)) by congruence.
    assert (Hm : 0 <= rnd mod (Z.lxor 2 (bits - 1) - 1 + 1)
                 < Z.lxor 2 (bits - 1) - 1 + 1)
      by (apply Z.mod_pos_bound; lia).
    set (m := rnd mod _) in *. clearbody m. lia.
  - intros r Hr. exists (r - 1).
    destruct (Z.ltb_spec (Z.lxor 2 (bits - 1)) 1) as [Hlt | Hge]; [lia |].
    rewrite Z.mod_small by lia. f_equal. lia.
Qed.

Lemma generate_seed_spec_witness :
  (exists rnd', Main.generate_seed 8 rnd' = Return 5) /\
  1 <= 3 <= Z.lxor 2 (8 - 1).
Proof.
  split.
  - apply (generate_seed_spec 8 0). simpl. lia.
  - apply (generate_seed_spec 8 2). reflexivity.
Defined.

(** X11.  The statement [client.renew(generate_seed(5), generate_seed(5))]
    of the script never fails: both draws return a value of 1..6, and the
    generator it installs passes the two [assert]s, so that its [next]
    raises nothing on any clock. *)
Theorem renew_seeded_valid (c : Main.PyflakeClient) (rnd1 rnd2 : Z) :
  exists pid seed,
    Main.renew_seeded c rnd1 rnd2 = Return (Main.renew c pid seed) /\
    1 <= pid <= 6 /\ 1 <= seed <= 6 /\
    Main.client_generator (Main.renew c pid seed)
    = Some (Main.pyflake_generator (Main.client_epoch c) pid seed) /\
    (forall clock e,
       Main.outcome_of
         (Main.next (Main.pyflake_generator (Main.client_epoch c) pid seed) clock)
       <> Main.Raised e).
Proof.
  exists (1 + rnd1 mod 6), (1 + rnd2 mod 6).
  pose proof (Z.mod_pos_bound rnd1 6 ltac:(lia)).
  pose proof (Z.mod_pos_bound rnd2 6 ltac:(lia)).
  split; [reflexivity |]. split; [lia |]. split; [lia |].
  split; [reflexivity |].
  intros clock e Hraised.
  apply next_raises in Hraised.
  cbn [Main.pyflake_generator Main.pid Main.seed Main.state] in Hraised.
  destruct Hraised as [(_ & _ & Hbad) | (_ & Hfin)]; [| discriminate Hfin].
  apply Hbad. lia.
Qed.

(** * Further properties of src/main.py *)

(** ** The client and its generator *)

Lemma create_generator_keeps (self : SrcMain.PyflakeClient) (pid seed : Z) :
  fst (SrcMain.create_generator self pid seed) <> Return tt /\
  SrcMain.client_generator (snd (SrcMain.create_generator self pid seed))
  = SrcMain.client_generator self /\
  SrcMain._generated (snd (SrcMain.create_generator self pid seed))
  = SrcMain._generated self /\
  SrcMain._cache (snd (SrcMain.create_generator self pid seed))
  = SrcMain._cache self /\
  SrcMain.client_epoch (snd (SrcMain.create_generator self pid seed))
  = SrcMain.client_epoch self.
Proof.
  unfold SrcMain.create_generator.
  destruct (SrcMain.client_generator self) as [g |] eqn:Hg; cbn.
  - rewrite Hg. repeat split. discriminate.
  - repeat split. discriminate.
Qed.

(** X12.  [create_generator] and [renew_generator] never complete: each
    raises on every client.  On a client without a generator
    [create_generator] raises [TypeError] after it has stored the pid and
    the seed, so that [get_info] then reports them with no generator. *)
Theorem create_generator_fails (self : SrcMain.PyflakeClient) (pid seed : Z) :
  fst (SrcMain.create_generator self pid seed) <> Return tt /\
  fst (SrcMain.renew_generator self pid seed) <> Return tt /\
  (SrcMain.client_generator self = None ->
   fst (SrcMain.create_generator self pid seed) = Raise TypeError /\
   SrcMain.get_info (snd (SrcMain.create_generator self pid seed))
   = {| SrcMain.info_epoch := SrcMain.client_epoch self;
        SrcMain.info_pid := Some pid;
        SrcMain.info_seed := Some seed;
        SrcMain.info_generated := SrcMain._generated self;
        SrcMain.info_generator := false |}).
Proof.
  split; [apply create_generator_keeps |]. split.
  - unfold SrcMain.renew_generator.
    destruct (SrcMain.destroy_generator self) as [[u | e] self'].
    + apply create_generator_keeps.
    + destruct e; try (cbn; discriminate); apply create_generator_keeps.
  - intros Hnone. unfold SrcMain.create_generator. rewrite Hnone.
    split; reflexivity.
Qed.

Lemma create_generator_fails_witness :
  SrcMain.get_info
    (snd (SrcMain.create_generator (SrcMain.new_client 1000) 3 7))
  = {| SrcMain.info_epoch := 1000; SrcMain.info_pid := Some 3;
       SrcMain.info_seed := Some 7; SrcMain.info_generated := 0;
       SrcMain.info_generator := false |}.
Proof.
  apply (create_generator_fails (SrcMain.new_client 1000) 3 7). reflexivity.
Defined.

Lemma serve_keeps (self : SrcMain.PyflakeClient) (r : SrcMain.request) :
  SrcMain.client_generator self = None ->
  SrcMain.client_generator (SrcMain.serve self r) = None /\
  SrcMain._generated (SrcMain.serve self r) = SrcMain._generated self /\
  SrcMain._cache (SrcMain.serve self r) = SrcMain._cache self.
Proof.
  intros Hnone.
  destruct r as [| pid seed | pid seed | clock]; cbn [SrcMain.serve].
  - unfold SrcMain.destroy_generator. rewrite Hnone. cbn. auto.
  - destruct (create_generator_keeps self pid seed) as (_ & Hg & Hn & Hc & _).
    rewrite Hg, Hn, Hc. auto.
  - unfold SrcMain.renew_generator, SrcMain.destroy_generator.
    rewrite Hnone.
    destruct (create_generator_keeps self pid seed) as (_ & Hg & Hn & Hc & _).
    rewrite Hg, Hn, Hc. auto.
  - unfold SrcMain.generate. rewrite Hnone. cbn. auto.
Qed.

(** X13.  Through its own methods a client never has a generator: after
    any sequence of [destroy_generator], [create_generator],
    [renew_generator] and [generate] calls on a new client the [generator]
    attribute is absent, the counter is 0 and the cache is empty, and
    [generate] raises [AttributeError] without touching the client or the
    clock. *)
Theorem client_never_generates (epoch : Z) (rs : list SrcMain.request) :
  let self := SrcMain.session (SrcMain.new_client epoch) rs in
  SrcMain.client_generator self = None /\
  SrcMain._generated self = 0 /\
  SrcMain._cache self = [] /\
  (forall clock,
     SrcMain.generate self clock = (SrcMain.Raised AttributeError, self, clock)).
Proof.
  intros self.
  assert (Hinv : forall rs' c,
            SrcMain.client_generator c = None ->
            SrcMain.client_generator (SrcMain.session c rs') = None /\
            SrcMain._generated (SrcMain.session c rs') = SrcMain._generated c /\
            SrcMain._cache (SrcMain.session c rs') = SrcMain._cache c).
  { induction rs' as [| r rs' IH]; intros c Hc;
      cbn [SrcMain.session fold_left]; [auto |].
    destruct (serve_keeps c r Hc) as (Hg & Hn & Hk).
    destruct (IH _ Hg) as (Hg' & Hn' & Hk').
    unfold SrcMain.session in *. repeat split; congruence. }
  destruct (Hinv rs (SrcMain.new_client epoch) eq_refl) as (Hg & Hn & Hk).
  fold self in Hg, Hn, Hk.
  repeat split; try assumption.
  intros clock. unfold SrcMain.generate. rewrite Hg. reflexivity.
Qed.

(** ** The generator with a sequence of any width *)

Lemma mask_ones (bits : Z) :
  0 <= bits -> Z.lxor (-1) (Z.shiftl (-1) bits) = 2 ^ bits - 1.
Proof.
  intros Hbits. rewrite Z.lxor_m1_l.
  rewrite Z.shiftl_mul_pow2 by assumption.
  unfold Z.lnot. lia.
Qed.

Lemma increment_under_mask (bits q : Z) :
  0 <= bits -> 0 <= q <= 2 ^ bits - 1 ->
  Z.land (q + 1) (2 ^ bits - 1) = if q =? 2 ^ bits - 1 then 0 else q + 1.
Proof.
  intros Hbits Hq.
  replace (2 ^ bits - 1) with (Z.ones bits) at 1
    by (rewrite Z.ones_equiv; lia).
  rewrite Z.land_ones by assumption.
  destruct (Z.eqb_spec q (2 ^ bits - 1)) as [-> | Hne].
  - replace (2 ^ bits - 1 + 1) with (2 ^ bits) by lia.
    apply Z.mod_same. pose proof (Z.pow_pos_nonneg 2 bits); lia.
  - apply Z.mod_small. lia.
Qed.

Section SrcLoop.

Variables epoch pid seed bits : Z.
Hypothesis bits_ok : 0 <= bits.

(** The locals in order for the width [bits]. *)
Local Abbreviation in_order l :=
  (SrcMain.sequence_mask l = 2 ^ bits - 1 /\
   0 <= SrcMain.sequence_now l <= 2 ^ bits - 1).

(** The record [p] was made from the locals [l']. *)
Local Abbreviation made_from p l' :=
  (SrcMain.epoch p = epoch /\ SrcMain.pid p = pid /\ SrcMain.seed p = seed /\
   SrcMain.timestamp p = SrcMain.last_timestamp l' /\
   SrcMain.sequence p = SrcMain.sequence_now l').

Local Abbreviation after_locals l l' :=
  (SrcMain.last_timestamp l < SrcMain.last_timestamp l' \/
   (SrcMain.last_timestamp l = SrcMain.last_timestamp l' /\
    SrcMain.sequence_now l < SrcMain.sequence_now l')).

Lemma src_loop_body_continue (l l' : SrcMain.locals) (t ms : Z) :
  in_order l ->
  SrcMain.loop_body epoch pid seed l t = SrcMain.Continue ms l' -> l' = l.
Proof.
  intros [Hm Hq]. unfold SrcMain.loop_body.
  destruct (SrcMain.last_timestamp l >? t); [intros [= _ <-]; reflexivity |].
  destruct (SrcMain.last_timestamp l =? t); [| discriminate].
  rewrite Hm, increment_under_mask by assumption.
  destruct (Z.eqb_spec (SrcMain.sequence_now l) (2 ^ bits - 1)) as [Hfull | Hne].
  - cbn [Z.eqb]. rewrite Z.land_m1_l. intros Heq.
    assert (Hl' : l' = {| SrcMain.last_timestamp := SrcMain.last_timestamp l;
                          SrcMain.sequence_now := 2 ^ bits - 1;
                          SrcMain.sequence_mask := 2 ^ bits - 1 |})
      by congruence.
    rewrite Hl'. destruct l as [lt q m]; cbn in *. subst. reflexivity.
  - destruct (Z.eqb_spec (SrcMain.sequence_now l + 1) 0); [lia | discriminate].
Qed.

Lemma src_loop_body_yield (l l' : SrcMain.locals) (t : Z) (p : SrcMain.Pyflake) :
  in_order l ->
  SrcMain.loop_body epoch pid seed l t = SrcMain.Yield p l' ->
  in_order l' /\ made_from p l' /\ after_locals l l'.
Proof.
  intros [Hm Hq]. unfold SrcMain.loop_body.
  destruct (Z.gtb_spec (SrcMain.last_timestamp l) t) as [Hgt | Hle];
    [discriminate |].
  destruct (Z.eqb_spec (SrcMain.last_timestamp l) t) as [Heq | Hne].
  - rewrite Hm, increment_under_mask by assumption.
    destruct (Z.eqb_spec (SrcMain.sequence_now l) (2 ^ bits - 1)) as [Hfull | Hn];
      [cbn [Z.eqb]; discriminate |].
    destruct (Z.eqb_spec (SrcMain.sequence_now l + 1) 0); [lia |].
    intros [= <- <-]. cbn. repeat split; lia.
  - pose proof (Z.pow_pos_nonneg 2 bits).
    intros [= <- <-]. cbn. repeat split; lia.
Qed.

Lemma src_loop_returned (sleep : SrcMain.sleeper) (clock : list Z) :
  forall (l : SrcMain.locals) (p : SrcMain.Pyflake),
  in_order l ->
  SrcMain.value (SrcMain.loop epoch pid seed sleep l clock) = SrcMain.Returned p ->
  let l' := SrcMain.kept (SrcMain.loop epoch pid seed sleep l clock) in
  in_order l' /\ made_from p l' /\ after_locals l l'.
Proof.
  induction clock as [| t clock IH]; intros l p Hok Hv; cbn [SrcMain.loop] in *.
  - discriminate Hv.
  - destruct (SrcMain.loop_body epoch pid seed l t) as [ms l1 | p1 l1] eqn:Hb.
    + apply src_loop_body_continue in Hb; [| assumption]. subst l1.
      destruct (sleep ms) as [u | e]; cbn [SrcMain.value SrcMain.kept] in *;
        [| discriminate Hv].
      apply IH; assumption.
    + cbn [SrcMain.value SrcMain.kept] in *. injection Hv as <-.
      apply src_loop_body_yield in Hb; assumption.
Qed.

Lemma src_history_suspended (sleep : SrcMain.sleeper) (n : nat) :
  forall (l : SrcMain.locals) (clock : list Z),
  in_order l ->
  let h := SrcMain.history n
             {| SrcMain.g_epoch := epoch; SrcMain.g_pid := pid;
                SrcMain.g_seed := seed; SrcMain.g_sequence_bits := bits;
                SrcMain.g_sleep := sleep;
                SrcMain.state := SrcMain.Suspended l |} clock in
  Forall (fun p =>
            SrcMain.epoch p = epoch /\ SrcMain.pid p = pid /\
            SrcMain.seed p = seed /\
            0 <= SrcMain.sequence p <= 2 ^ bits - 1 /\
            (SrcMain.last_timestamp l < SrcMain.timestamp p \/
             (SrcMain.last_timestamp l = SrcMain.timestamp p /\
              SrcMain.sequence_now l < SrcMain.sequence p))) h /\
  StronglySorted SrcMain.before h.
Proof.
  induction n as [| n IH]; intros l clock Hok h; subst h.
  - split; constructor.
  - cbn [SrcMain.history]. unfold SrcMain.next. cbn [SrcMain.state].
    unfold SrcMain.resume.
    cbn [SrcMain.outcome_of SrcMain.after SrcMain.clock_after SrcMain.g_epoch
         SrcMain.g_pid SrcMain.g_seed SrcMain.g_sleep].
    destruct (SrcMain.value (SrcMain.loop epoch pid seed sleep l clock))
      as [p | e |] eqn:Hv; [| split; constructor ..].
    destruct (src_loop_returned sleep clock l p Hok Hv)
      as (Hok' & (He & Hp & Hs & Ht & Hq) & Hafter).
    unfold SrcMain.set_state.
    cbn [SrcMain.g_epoch SrcMain.g_pid SrcMain.g_seed SrcMain.g_sleep
         SrcMain.g_sequence_bits].
    destruct (IH _ (SrcMain.unread (SrcMain.loop epoch pid seed sleep l clock))
                Hok') as [Hall Hsorted].
    split.
    + constructor.
      * rewrite Ht, Hq. repeat split; try assumption; apply Hok'.
      * eapply Forall_impl; [| exact Hall].
        intros p' (H1 & H2 & H3 & H4 & H5).
        repeat split; try assumption; try lia.
    + constructor; [assumption |].
      eapply Forall_impl; [| exact Hall].
      intros p' (_ & _ & _ & _ & H5). unfold SrcMain.before. lia.
Qed.

End SrcLoop.

(** X14.  The generator of [src/main.py], built with any pid and seed, a
    sequence width [bits >= 0] and any [sleep]: the records that successive
    calls return carry the epoch, pid and seed it was built with, have a
    sequence within [0 .. 2^bits - 1], and come strictly ordered by
    timestamp and then sequence. *)
Theorem src_generator_order (epoch pid seed bits : Z) (sleep : SrcMain.sleeper)
    (n : nat) (clock : list Z) :
  0 <= bits ->
  let h := SrcMain.history n
             {| SrcMain.g_epoch := epoch; SrcMain.g_pid := pid;
                SrcMain.g_seed := seed; SrcMain.g_sequence_bits := bits;
                SrcMain.g_sleep := sleep; SrcMain.state := SrcMain.Unstarted |}
             clock in
  Forall (fun p =>
            SrcMain.epoch p = epoch /\ SrcMain.pid p = pid /\
            SrcMain.seed p = seed /\
            0 <= SrcMain.sequence p <= 2 ^ bits - 1) h /\
  StronglySorted SrcMain.before h.
Proof.
  intros Hbits h.
  set (l0 := {| SrcMain.last_timestamp := -1; SrcMain.sequence_now := 0;
                SrcMain.sequence_mask := Z.lxor (-1) (Z.shiftl (-1) bits) |}).
  assert (Hok : SrcMain.sequence_mask l0 = 2 ^ bits - 1 /\
                0 <= SrcMain.sequence_now l0 <= 2 ^ bits - 1).
  { cbn. split; [apply mask_ones; assumption |].
    pose proof (Z.pow_pos_nonneg 2 bits). lia. }
  assert (Hh : h = SrcMain.history n
                     {| SrcMain.g_epoch := epoch; SrcMain.g_pid := pid;
                        SrcMain.g_seed := seed; SrcMain.g_sequence_bits := bits;
                        SrcMain.g_sleep := sleep;
                        SrcMain.state := SrcMain.Suspended l0 |} clock).
  { subst h. destruct n as [| n]; [reflexivity |].
    cbn [SrcMain.history]. unfold SrcMain.next.
    cbn [SrcMain.state SrcMain.g_sequence_bits].
    destruct (Z.ltb_spec bits 0); [lia | reflexivity]. }
  rewrite Hh.
  destruct (src_history_suspended epoch pid seed bits Hbits sleep n l0 clock Hok)
    as [Hall Hsorted].
  split; [| assumption].
  eapply Forall_impl; [| exact Hall].
  intros p (H1 & H2 & H3 & H4 & _). auto.
Qed.

Lemma src_generator_order_witness :
  StronglySorted SrcMain.before
    (SrcMain.history 3
       {| SrcMain.g_epoch := 1000; SrcMain.g_pid := 40; SrcMain.g_seed := 7;
          SrcMain.g_sequence_bits := 0; SrcMain.g_sleep := fun _ => Return tt;
          SrcMain.state := SrcMain.Unstarted |} [1005; 1005; 1006; 1007]) /\
  List.length
    (SrcMain.history 3
       {| SrcMain.g_epoch := 1000; SrcMain.g_pid := 40; SrcMain.g_seed := 7;
          SrcMain.g_sequence_bits := 0; SrcMain.g_sleep := fun _ => Return tt;
          SrcMain.state := SrcMain.Unstarted |} [1005; 1005; 1006; 1007])
  = 3%nat.
Proof.
  split; [| reflexivity].
  apply (src_generator_order 1000 40 7 0 (fun _ => Return tt) 3
           [1005; 1005; 1006; 1007]).
  lia.
Defined.

(** ** The default [sleep] *)

(** X15.  With the default [sleep] of [src/main.py] the generator does not
    survive a wait: resumed on a reading behind [last_timestamp], [next]
    calls [sleep] once, raises [AttributeError] and leaves the generator
    finished, so that every later [next] raises [StopIteration]. *)
Theorem default_sleep_finishes (epoch pid seed bits : Z) (l : SrcMain.locals)
    (t : Z) (clock clock' : list Z) :
  t < SrcMain.last_timestamp l ->
  let g := {| SrcMain.g_epoch := epoch; SrcMain.g_pid := pid;
              SrcMain.g_seed := seed; SrcMain.g_sequence_bits := bits;
              SrcMain.g_sleep := SrcMain.default_sleep;
              SrcMain.state := SrcMain.Suspended l |} in
  let r := SrcMain.next g (t :: clock) in
  SrcMain.pyflake_generator epoch pid seed (Some bits) None
  = Return (SrcMain.set_state g SrcMain.Unstarted) /\
  SrcMain.outcome_of r = SrcMain.Raised AttributeError /\
  SrcMain.sleeps r = [SrcMain.last_timestamp l - t] /\
  SrcMain.state (SrcMain.after r) = SrcMain.Finished /\
  SrcMain.outcome_of (SrcMain.next (SrcMain.after r) clock')
  = SrcMain.Raised StopIteration.
Proof.
  intros Hlt g r. split; [reflexivity |].
  assert (Hb : SrcMain.loop_body epoch pid seed l t
               = SrcMain.Continue (SrcMain.last_timestamp l - t) l).
  { unfold SrcMain.loop_body.
    destruct (Z.gtb_spec (SrcMain.last_timestamp l) t); [reflexivity | lia]. }
  subst r g. unfold SrcMain.next. cbn [SrcMain.state]. unfold SrcMain.resume.
  cbn [SrcMain.g_epoch SrcMain.g_pid SrcMain.g_seed SrcMain.g_sleep SrcMain.loop].
  rewrite Hb. cbn. repeat split.
Qed.

Lemma default_sleep_finishes_witness :
  SrcMain.outcome_of
    (SrcMain.next
       {| SrcMain.g_epoch := 1000; SrcMain.g_pid := 3; SrcMain.g_seed := 7;
          SrcMain.g_sequence_bits := 12;
          SrcMain.g_sleep := SrcMain.default_sleep;
          SrcMain.state :=
            SrcMain.Suspended
              {| SrcMain.last_timestamp := 1005; SrcMain.sequence_now := 0;
                 SrcMain.sequence_mask := 4095 |} |} [1004; 1006])
  = SrcMain.Raised AttributeError.
Proof.
  assert (Hlt : 1004 < SrcMain.last_timestamp
                         {| SrcMain.last_timestamp := 1005;
                            SrcMain.sequence_now := 0;
                            SrcMain.sequence_mask := 4095 |})
    by (simpl; lia).
  exact (proj1 (proj2 (default_sleep_finishes 1000 3 7 12 _ 1004 [1006] [] Hlt))).
Defined.

(** ** Bit lengths *)

Lemma bit_length_nonneg (z : Z) : 0 <= bit_length z.
Proof.
  unfold bit_length. destruct (z =? 0); [lia |].
  pose proof (Z.log2_nonneg (Z.abs z)). lia.
Qed.

Lemma bit_length_zero (z : Z) : bit_length z = 0 <-> z = 0.
Proof.
  unfold bit_length. destruct (Z.eqb_spec z 0) as [-> | Hne]; [tauto |].
  pose proof (Z.log2_nonneg (Z.abs z)). lia.
Qed.

Lemma bit_length_bounds (z : Z) :
  Z.abs z < 2 ^ bit_length z /\ (z <> 0 -> 2 ^ (bit_length z - 1) <= Z.abs z).
Proof.
  unfold bit_length. destruct (Z.eqb_spec z 0) as [-> | Hne].
  - split; [reflexivity | tauto].
  - assert (Hpos : 0 < Z.abs z) by lia.
    destruct (Z.log2_spec (Z.abs z) Hpos) as [Hlo Hhi].
    replace (Z.log2 (Z.abs z) + 1 - 1) with (Z.log2 (Z.abs z)) by lia.
    unfold Z.succ in Hhi. auto.
Qed.

(** X16.  [validate] raises [AssertionError] exactly when the four values
    are all zero or their bit lengths add up to more than 64; it does not
    look at the epoch, and what it accepts is below [2^64] in absolute
    value, field by field. *)
Theorem validate_spec (self : SrcMain.PyflakeClient)
    (epoch timestamp pid seed sequence : Z) :
  (SrcMain.validate self epoch timestamp pid seed sequence
   = Raise AssertionError
   <-> (timestamp = 0 /\ pid = 0 /\ seed = 0 /\ sequence = 0) \/
       64 < bit_length timestamp + bit_length pid + bit_length seed
            + bit_length sequence) /\
  (SrcMain.validate self epoch timestamp pid seed sequence = Return tt ->
   Z.abs timestamp < 2 ^ 64 /\ Z.abs pid < 2 ^ 64 /\
   Z.abs seed < 2 ^ 64 /\ Z.abs sequence < 2 ^ 64) /\
  (forall self' epoch',
     SrcMain.validate self' epoch' timestamp pid seed sequence
     = SrcMain.validate self epoch timestamp pid seed sequence).
Proof.
  unfold SrcMain.validate.
  pose proof (bit_length_nonneg timestamp) as Ht.
  pose proof (bit_length_nonneg pid) as Hp.
  pose proof (bit_length_nonneg seed) as Hs.
  pose proof (bit_length_nonneg sequence) as Hq.
  pose proof (bit_length_zero timestamp) as Zt.
  pose proof (bit_length_zero pid) as Zp.
  pose proof (bit_length_zero seed) as Zs.
  pose proof (bit_length_zero sequence) as Zq.
  set (bt := bit_length timestamp) in *. set (bp := bit_length pid) in *.
  set (bs := bit_length seed) in *. set (bq := bit_length sequence) in *.
  assert (Hcond : (0 <? bt + bp + bs + bq) && (bt + bp + bs + bq <=? 64) = true
                  <-> 0 < bt + bp + bs + bq <= 64)
    by (rewrite andb_true_iff, Z.ltb_lt, Z.leb_le; tauto).
  split; [| split; [| reflexivity]].
  - destruct ((0 <? bt + bp + bs + bq) && (bt + bp + bs + bq <=? 64)) eqn:E.
    + pose proof (proj1 Hcond eq_refl) as Hin.
      split; [discriminate |].
      intros [(H1 & H2 & H3 & H4) | Hbig]; [| lia].
      apply Zt in H1. apply Zp in H2. apply Zs in H3. apply Zq in H4. lia.
    + split; [intros _ | reflexivity].
      assert (Hout : ~ (0 < bt + bp + bs + bq <= 64))
        by (intros Hin; apply Hcond in Hin; discriminate Hin).
      destruct (Z.lt_ge_cases 64 (bt + bp + bs + bq)) as [Hbig | Hsmall];
        [right; assumption | left].
      assert (bt = 0 /\ bp = 0 /\ bs = 0 /\ bq = 0) as (H1 & H2 & H3 & H4) by lia.
      apply Zt in H1. apply Zp in H2. apply Zs in H3. apply Zq in H4. auto.
  - destruct ((0 <? bt + bp + bs + bq) && (bt + bp + bs + bq <=? 64)) eqn:E;
      [| discriminate].
    pose proof (proj1 Hcond eq_refl) as Hin.
    intros _.
    assert (Hfit : forall z, 0 <= bit_length z <= 64 -> Z.abs z < 2 ^ 64).
    { intros z Hz. destruct (bit_length_bounds z) as [Hlt _].
      pose proof (Z.pow_le_mono_r 2 (bit_length z) 64 ltac:(lia) ltac:(lia)).
      lia. }
    subst bt bp bs bq. repeat split; apply Hfit; lia.
Qed.

Lemma validate_spec_witness :
  Z.abs 1600000005000 < 2 ^ 64 /\
  SrcMain.validate (SrcMain.new_client 0) 0 0 0 0 0 = Raise AssertionError.
Proof.
  split.
  - exact (proj1 (proj1 (proj2 (validate_spec
                                  (SrcMain.new_client 1600000000000)
                                  1600000000000 1600000005000 3 7 0))
                        eq_refl)).
  - exact (proj2 (proj1 (validate_spec (SrcMain.new_client 0) 0 0 0 0 0))
                 (or_introl (conj eq_refl (conj eq_refl (conj eq_refl eq_refl))))).
Defined.


